(** * ssh-cf-plugin: the SSH command provider (main.go)

    A shallow embedding of [Evaluate], [Execute] and [RunCommand] of
    main.go.  The provider is effectful: it reads the wall clock, draws
    UUIDs, writes to the log, talks to an SSH server and may end the process
    ([log.Fatalf]).  These effects are threaded through a small state monad
    whose state counts the clock readings and UUIDs consumed so far and
    records the trace of externally visible events.  The collaborators that
    are not part of main.go (the YAML decoder, the SSH network, the clock and
    the UUID source) are variables of the section that holds the provider;
    concrete instances of them are given afterwards to run the provider on
    explicit inputs. *)

From stdpp Require Import base strings gmap list pretty.
From Stdlib Require Import ZArith Lia Ascii.

(** [++] is list concatenation throughout; strings are joined with [+:+]. *)
#[local] Disable Notation "x ++ y" : string_scope.
Local Open Scope string_scope.
Local Open Scope Z_scope.

(** ** Go values *)

(** A Go [error] value is represented by its message; [nil] is [None]. *)
Definition error : Type := string.

(** The line feed, written "\n" in main.go. *)
Definition nl : string := String (Ascii.ascii_of_nat 10) "".

(** [m[k]] on a Go [map[string]string] in its two-result form: the value (the
    zero value [""] when the key is absent) and the presence flag. *)
Definition map_index (m : gmap string string) (k : string) : string * bool :=
  match m !! k with
  | Some v => (v, true)
  | None => ("", false)
  end.

(** [%d] of [fmt.Sprintf] on a Go [int]. *)
Definition fmt_d (n : Z) : string := pretty n.

(** ** The data model *)

(** [SSHConfig] contains the SSH connection configuration (main.go:20). *)
Record SSHConfig := mkSSHConfig {
  Username : string;
  Password : string;
  Host : string;
  Command : string;
  Port : string
}.

(** The zero value of [var ssh_config SSHConfig]. *)
Definition SSHConfig_zero : SSHConfig := mkSSHConfig "" "" "" "" "".

(** The types of the assessment-runtime [provider] package, with the fields
    main.go assigns; every other field keeps its zero value. *)
Inductive SubjectType := SubjectType_INVENTORY_ITEM.
Inductive ExecutionStatus := ExecutionStatus_SUCCESS | ExecutionStatus_FAILURE.

Module Subject.
Record t := mk {
  Id : string;
  Type_ : SubjectType;
  Title : string;
  Props : gmap string string
}.
End Subject.

Module Property.
Record t := mk { Name : string; Value : string }.
End Property.

Module Evidence.
Record t := mk { Description : string }.
End Evidence.

Module Link.
Record t := mk { Href : string }.
End Link.

Module Observation.
Record t := mk {
  Id : string;
  Title : string;
  Description : string;
  Collected : string;
  Expires : string;
  Links : list Link.t;
  Props : list Property.t;
  RelevantEvidence : list Evidence.t;
  Remarks : string
}.
End Observation.

Module Finding.
Record t := mk {
  Id : string;
  Title : string;
  Description : string;
  Remarks : string;
  RelatedObservations : list string
}.
End Finding.

Module LogEntry.
Record t := mk {
  Title : string;
  Description : string;
  Start : string;
  End_ : string
}.
End LogEntry.

Record EvaluateInput := { EvaluateInput_Configuration : gmap string string }.
Record EvaluateResult := { Subjects : list Subject.t }.
Record ExecuteInput := { ExecuteInput_Configuration : gmap string string }.
Record ExecuteResult := {
  Status : ExecutionStatus;
  Observations : list Observation.t;
  Findings : list Finding.t;
  Logs : list LogEntry.t
}.

(** ** The time package, in UTC

    An instant is a number of seconds since the Unix epoch; RFC 3339 output
    has no finer resolution.  [days_from_civil] and [civil_from_days] convert
    between a day count and a proleptic Gregorian date. *)
Module time.

Definition Time : Type := Z.

Definition days_from_civil (y m d : Z) : Z :=
  let y' := if m <=? 2 then y - 1 else y in
  let era := y' / 400 in
  let yoe := y' - era * 400 in
  let mp := if m <=? 2 then m + 9 else m - 3 in
  let doy := (153 * mp + 2) / 5 + d - 1 in
  let doe := yoe * 365 + yoe / 4 - yoe / 100 + doy in
  era * 146097 + doe - 719468.

Definition civil_from_days (z : Z) : Z * Z * Z :=
  let z' := z + 719468 in
  let era := z' / 146097 in
  let doe := z' - era * 146097 in
  let yoe := (doe - doe / 1460 + doe / 36524 - doe / 146096) / 365 in
  let doy := doe - (365 * yoe + yoe / 4 - yoe / 100) in
  let mp := (5 * doy + 2) / 153 in
  let d := doy - (153 * mp + 2) / 5 + 1 in
  let m := if mp <? 10 then mp + 3 else mp - 9 in
  (if m <=? 2 then yoe + era * 400 + 1 else yoe + era * 400, m, d).

(** [t.Date()] and [t.Clock()]. *)
Definition Date_of (t : Time) : Z * Z * Z := civil_from_days (t / 86400).
Definition Clock_of (t : Time) : Z * Z * Z :=
  let s := t mod 86400 in (s / 3600, (s mod 3600) / 60, s mod 60).

(** [time.Date]: the month is normalised into 1..12 by carrying into the
    year; a day beyond the end of the month carries into the next one. *)
Definition Date (year month day hour min sec : Z) : Time :=
  let m := month - 1 in
  let year' := year + m / 12 in
  let month' := m mod 12 + 1 in
  days_from_civil year' month' day * 86400 + hour * 3600 + min * 60 + sec.

Definition AddDate (t : Time) (years months days : Z) : Time :=
  let '(year, month, day) := Date_of t in
  let '(hour, min, sec) := Clock_of t in
  Date (year + years) (month + months) (day + days) hour min sec.

(** Decimal digits of [n], padded with zeros on the left to [w] places. *)
Definition pad (w : nat) (s : string) : string :=
  String.concat "" (replicate (w - String.length s) "0") +:+ s.
Definition digits (w : nat) (n : Z) : string := pad w (pretty n).

(** [t.Format(time.RFC3339)] for an instant in UTC. *)
Definition Format_RFC3339 (t : Time) : string :=
  let '(year, month, day) := Date_of t in
  let '(hour, min, sec) := Clock_of t in
  digits 4 year +:+ "-" +:+ digits 2 month +:+ "-" +:+ digits 2 day +:+ "T" +:+
  digits 2 hour +:+ ":" +:+ digits 2 min +:+ ":" +:+ digits 2 sec +:+ "Z".

End time.

(** ** The ssh package

    What main.go sees of golang.org/x/crypto/ssh: a dialled client offers
    [NewSession], a session offers [CombinedOutput].  The error of a finished
    command is either an [*ssh.ExitError], which carries the exit status of the
    remote process, or any other error. *)
Module ssh.

Inductive AuthMethod := Password (secret : string).
Inductive HostKeyCallback := InsecureIgnoreHostKey.

Record ClientConfig := mkClientConfig {
  User : string;
  Auth : list AuthMethod;
  HostKeyCallback_ : HostKeyCallback
}.

Inductive run_error :=
| ExitError (ExitStatus : Z)
| OtherError (msg : error).

Record Session := { CombinedOutput : string -> string * option run_error }.
Record Client := { NewSession : error + Session }.

(** [ssh.Dial network address config]. *)
Definition Network : Type := string -> string -> ClientConfig -> error + Client.

End ssh.

(** ** Effects *)

(** Externally visible events, in the order they happen. *)
Inductive event :=
| EvLog (msg : string)
| EvDial (network address : string) (config : ssh.ClientConfig)
| EvNewSession
| EvCombinedOutput (cmd : string)
| EvSessionClose
| EvClientClose
| EvExit (code : Z).

(** The state threaded through a call: how many clock readings and UUIDs
    have been consumed, and the events so far (oldest first). *)
Record world := mkWorld {
  ticks : nat;
  drawn : nat;
  trace : list event
}.

Definition world0 : world := mkWorld 0 0 [].

(** A computation either returns to its caller or ends the process. *)
Inductive outcome (A : Type) :=
| Return (a : A)
| Exit (code : Z).
Arguments Return {A} a.
Arguments Exit {A} code.

Definition M (A : Type) : Type := world -> outcome A * world.

#[global] Instance M_ret : MRet M := fun A a w => (Return a, w).
#[global] Instance M_bind : MBind M := fun A B f m w =>
  match m w with
  | (Return a, w') => f a w'
  | (Exit code, w') => (Exit code, w')
  end.

Definition emit (e : event) : M unit :=
  fun w => (Return tt, mkWorld (ticks w) (drawn w) (trace w ++ [e])).

(** [log.Printf] writes one line to the log. *)
Definition log_Printf (msg : string) : M unit := emit (EvLog msg).

(** [log.Fatalf] is [log.Printf] followed by [os.Exit(1)]: it never returns. *)
Definition log_Fatalf {A : Type} (msg : string) : M A :=
  fun w => (Exit 1, mkWorld (ticks w) (drawn w) (trace w ++ [EvLog msg; EvExit 1])).

(** ** The provider *)

Section Provider.

(** [yaml.Unmarshal data &ssh_config] on a zero-valued [SSHConfig]: the
    decoding error, or the configuration that was filled in. *)
Variable yaml_Unmarshal : string -> error + SSHConfig.

(** The network reached through [ssh.Dial]. *)
Variable network : ssh.Network.

(** The successive readings of [time.Now()] and the successive values of
    [uuid.New().String()]. *)
Variable clock : nat -> time.Time.
Variable uuids : nat -> string.

Definition time_Now : M time.Time :=
  fun w => (Return (clock (ticks w)), mkWorld (S (ticks w)) (drawn w) (trace w)).

Definition uuid_New : M string :=
  fun w => (Return (uuids (drawn w)), mkWorld (ticks w) (S (drawn w)) (trace w)).

(** The port after [if port == "" { port = "22" }]. *)
Definition effective_port (port : string) : string :=
  if decide (port = "") then "22" else port.

(** main.go:28 *)
Definition Evaluate (input : EvaluateInput) : M (option EvaluateResult * option error) :=
  let '(yamlString, ok) := map_index (EvaluateInput_Configuration input) "yaml" in
  _ ← log_Printf ("yamlString: " +:+ yamlString);
  match yaml_Unmarshal yamlString with
  | inl err => mret (None, Some ("Error unmarshalling YAML: " +:+ err +:+ nl))
  | inr ssh_config =>
    if negb ok then mret (None, Some "yaml parameter is missing") else
    let username := Username ssh_config in
    let host := Host ssh_config in
    let command := Command ssh_config in
    let port := effective_port (Port ssh_config) in
    let ssh_target_id := username +:+ "@" +:+ host +:+ ":" +:+ port +:+ " " +:+ command in
    let subjects :=
      ([] ++ [ Subject.mk ssh_target_id SubjectType_INVENTORY_ITEM
                 ("SSH target ssh " +:+ ssh_target_id)
                 {[ "id" := ssh_target_id ]} ]) in
    mret (Some {| Subjects := subjects |}, None)
  end.

(** main.go:179.  The two deferred [Close] calls run, last deferred first,
    when the function returns. *)
Definition RunCommand (config : SSHConfig) : M (string * Z * option error) :=
  let sshConfig :=
    ssh.mkClientConfig (Username config) [ssh.Password (Password config)]
      ssh.InsecureIgnoreHostKey in
  let address := Host config +:+ ":" +:+ Port config in
  _ ← emit (EvDial "tcp" address sshConfig);
  match network "tcp" address sshConfig with
  | inl err => mret ("", -1, Some ("failed to dial: " +:+ err))
  | inr client =>
    _ ← emit EvNewSession;
    match ssh.NewSession client with
    | inl err =>
      _ ← emit EvClientClose;
      mret ("", -1, Some ("failed to create session: " +:+ err))
    | inr session =>
      _ ← emit (EvCombinedOutput (Command config));
      let '(output, err) := ssh.CombinedOutput session (Command config) in
      _ ← emit EvSessionClose;
      _ ← emit EvClientClose;
      match err with
      | Some (ssh.ExitError status) => mret (output, status, None)
      | Some (ssh.OtherError msg) =>
        mret ("", -1, Some ("failed to execute command: " +:+ msg))
      | None => mret (output, 0, None)
      end
    end
  end.

(** main.go:68 *)
Definition Execute (input : ExecuteInput) : M (option ExecuteResult * option error) :=
  start ← time_Now;
  let start_time := time.Format_RFC3339 start in
  let '(yamlString, ok) := map_index (ExecuteInput_Configuration input) "yaml" in
  if negb ok then mret (None, Some "yaml parameter is missing") else
  match yaml_Unmarshal yamlString with
  | inl err => mret (None, Some ("Error unmarshalling YAML: " +:+ err +:+ nl))
  | inr ssh_config =>
    let username := Username ssh_config in
    let host := Host ssh_config in
    let command := Command ssh_config in
    let port := effective_port (Port ssh_config) in
    obs_id ← uuid_New;
    let ssh_target_command :=
      "ssh -p " +:+ port +:+ " " +:+ username +:+ "@" +:+ host +:+ " " +:+ command in
    '(output, exit_code, err) ← RunCommand ssh_config;
    match err with
    | Some e => log_Fatalf ("Failed to run command: " +:+ e)
    | None =>
      '(observations, findings) ←
        (if decide (exit_code ≠ 0) then
           collected ← time_Now;
           now ← time_Now;
           let obs := Observation.mk obs_id
             "SSH Command Did Not Succeed"
             ("The command: " +:+ ssh_target_command +:+ " did not succeed.")
             (time.Format_RFC3339 collected)
             (time.Format_RFC3339 (time.AddDate now 0 1 0))
             []
             [Property.mk "Command" ssh_target_command]
             [Evidence.mk ("The command returned an exit code of " +:+ fmt_d exit_code
                           +:+ " for the command: " +:+ ssh_target_command)]
             ("The command: '" +:+ ssh_target_command
              +:+ "' should return a zero exit code.") in
           finding_id ← uuid_New;
           let fndngs := Finding.mk finding_id
             "SSH Command Failure"
             ("The command " +:+ ssh_target_command
              +:+ " did not succeed, and produced output: " +:+ output +:+ ".")
             ("Correct the command " +:+ ssh_target_command +:+ ".")
             [obs_id] in
           mret ([] ++ [obs], [] ++ [fndngs])
         else
           collected ← time_Now;
           now ← time_Now;
           let obs := Observation.mk obs_id
             "SSH Command Succeeded"
             ("The command: " +:+ ssh_target_command +:+ " succeeded.")
             (time.Format_RFC3339 collected)
             (time.Format_RFC3339 (time.AddDate now 0 1 0))
             []
             [Property.mk "Command" ssh_target_command]
             [Evidence.mk ("The command returned an exit code of " +:+ fmt_d exit_code
                           +:+ " for the command: " +:+ ssh_target_command)]
             "All OK." in
           mret ([] ++ [obs], []));
      end_ ← time_Now;
      let logEntry := LogEntry.mk "SSH Command Check"
        "SSH command check has run successfully"
        start_time (time.Format_RFC3339 end_) in
      mret (Some {| Status := ExecutionStatus_SUCCESS;
                    Observations := observations;
                    Findings := findings;
                    Logs := [logEntry] |}, None)
    end
  end.

End Provider.

(** ** Concrete collaborators, to run the provider *)

(** The decoder of gopkg.in/yaml.v2 on the documents used below: flat block
    mappings of plain scalars, one [key: value] pair per line.  A key that
    names no field of [SSHConfig] is ignored, a field whose key does not occur
    keeps its zero value, and the empty document decodes to the zero value. *)
Fixpoint lines (s : string) : list string :=
  match s with
  | EmptyString => [""]
  | String c s' =>
    if decide (c = Ascii.ascii_of_nat 10) then "" :: lines s'
    else match lines s' with
         | l :: ls => String c l :: ls
         | [] => [String c ""]
         end
  end.

Fixpoint key_value (line : string) : option (string * string) :=
  match line with
  | EmptyString => None
  | String c rest =>
    match rest with
    | String c' v =>
      if decide (c = ":"%char ∧ c' = " "%char) then Some ("", v)
      else '(k, v) ← key_value rest; Some (String c k, v)
    | EmptyString => None
    end
  end.

Definition set_field (cfg : SSHConfig) (k v : string) : SSHConfig :=
  if decide (k = "username") then
    mkSSHConfig v (Password cfg) (Host cfg) (Command cfg) (Port cfg)
  else if decide (k = "password") then
    mkSSHConfig (Username cfg) v (Host cfg) (Command cfg) (Port cfg)
  else if decide (k = "host") then
    mkSSHConfig (Username cfg) (Password cfg) v (Command cfg) (Port cfg)
  else if decide (k = "command") then
    mkSSHConfig (Username cfg) (Password cfg) (Host cfg) v (Port cfg)
  else if decide (k = "port") then
    mkSSHConfig (Username cfg) (Password cfg) (Host cfg) (Command cfg) v
  else cfg.

Fixpoint decode_lines (ls : list string) (cfg : SSHConfig) : error + SSHConfig :=
  match ls with
  | [] => inr cfg
  | l :: ls' =>
    if decide (l = "") then decode_lines ls' cfg
    else match key_value l with
         | Some (k, v) => decode_lines ls' (set_field cfg k v)
         | None => inl ("yaml: unmarshal errors: cannot unmarshal `" +:+ l
                        +:+ "` into main.SSHConfig")
         end
  end.

Definition yaml_plain (data : string) : error + SSHConfig :=
  decode_lines (lines data) SSHConfig_zero.

(** A YAML document from its lines. *)
Definition document (ls : list string) : string := String.concat nl ls.

(** The configuration map the host passes, from the YAML text. *)
Definition configuration (yaml : string) : gmap string string := {[ "yaml" := yaml ]}.

(** A server that completes every command with the given output and error. *)
Definition server (output : string) (err : option ssh.run_error) : ssh.Client :=
  {| ssh.NewSession := inr {| ssh.CombinedOutput := fun _ => (output, err) |} |}.

(** A network on which exactly one address is listening. *)
Definition listening (address : string) (client : ssh.Client) : ssh.Network :=
  fun _ addr _ =>
    if decide (addr = address) then inr client
    else inl ("dial tcp " +:+ addr +:+ ": connect: connection refused").

(** A network on which every address is served. *)
Definition reachable (client : ssh.Client) : ssh.Network := fun _ _ _ => inr client.

(** A network on which nothing is listening. *)
Definition unreachable : ssh.Network :=
  fun _ addr _ => inl ("dial tcp " +:+ addr +:+ ": connect: connection refused").

(** A clock that stands still, and one that advances by a second a reading. *)
Definition frozen (t : time.Time) : nat -> time.Time := fun _ => t.
Definition ticking (t : time.Time) : nat -> time.Time := fun k => t + Z.of_nat k.

(** A numbered sequence of identifiers in UUID layout. *)
Definition uuid_seq : nat -> string :=
  fun k => "00000000-0000-4000-8000-" +:+ time.pad 12 (pretty k).

(** ** What a call did *)

(** The call returned to its caller with an error value and no result. *)
Definition returns_error {R : Type}
    (r : outcome (option R * option error) * world) (e : error) : Prop :=
  r.1 = Return (None, Some e).

(** The call returned to its caller with a result and a nil error. *)
Definition returns_result {R : Type}
    (r : outcome (option R * option error) * world) (res : R) : Prop :=
  r.1 = Return (Some res, None).

(** The call ended the process instead of returning. *)
Definition exits_process {A : Type} (r : outcome A * world) : Prop :=
  ∃ code, r.1 = Exit code.

(** The [ssh.ClientConfig] and the address [RunCommand] passes to [ssh.Dial]. *)
Definition sshConfig_of (config : SSHConfig) : ssh.ClientConfig :=
  ssh.mkClientConfig (Username config) [ssh.Password (Password config)]
    ssh.InsecureIgnoreHostKey.
Definition address_of (config : SSHConfig) : string :=
  Host config +:+ ":" +:+ Port config.

(** The one-line command [Execute] reports in its evidence. *)
Definition ssh_target_command_of (config : SSHConfig) : string :=
  "ssh -p " +:+ effective_port (Port config) +:+ " " +:+ Username config +:+ "@"
  +:+ Host config +:+ " " +:+ Command config.

(** The subject id [Evaluate] builds. *)
Definition ssh_target_id_of (config : SSHConfig) : string :=
  Username config +:+ "@" +:+ Host config +:+ ":" +:+ effective_port (Port config)
  +:+ " " +:+ Command config.

(** ** Values the provider builds *)

(** The value [RunCommand] returns once the command was dispatched. *)
Definition result_of_run (output : string) (err : option ssh.run_error)
    : string * Z * option error :=
  match err with
  | Some (ssh.ExitError status) => (output, status, None)
  | Some (ssh.OtherError msg) => ("", -1, Some ("failed to execute command: " +:+ msg))
  | None => (output, 0, None)
  end.

(** The state in which [Execute] calls [RunCommand]: one clock reading
    (the start time) and one UUID (the observation id) were consumed. *)
Definition at_RunCommand (w : world) : world := mkWorld (S (ticks w)) (S (drawn w)) (trace w).

(** The observation, the finding and the log entry [Execute] builds, from the
    state [w] it was called in. *)
Definition failure_observation (clock : nat -> time.Time) (uuids : nat -> string)
    (ssh_config : SSHConfig) (w : world) (exit_code : Z) : Observation.t :=
  let ssh_target_command := ssh_target_command_of ssh_config in
  Observation.mk (uuids (drawn w))
    "SSH Command Did Not Succeed"
    ("The command: " +:+ ssh_target_command +:+ " did not succeed.")
    (time.Format_RFC3339 (clock (S (ticks w))))
    (time.Format_RFC3339 (time.AddDate (clock (S (S (ticks w)))) 0 1 0))
    []
    [Property.mk "Command" ssh_target_command]
    [Evidence.mk ("The command returned an exit code of " +:+ fmt_d exit_code
                  +:+ " for the command: " +:+ ssh_target_command)]
    ("The command: '" +:+ ssh_target_command +:+ "' should return a zero exit code.").

Definition success_observation (clock : nat -> time.Time) (uuids : nat -> string)
    (ssh_config : SSHConfig) (w : world) (exit_code : Z) : Observation.t :=
  let ssh_target_command := ssh_target_command_of ssh_config in
  Observation.mk (uuids (drawn w))
    "SSH Command Succeeded"
    ("The command: " +:+ ssh_target_command +:+ " succeeded.")
    (time.Format_RFC3339 (clock (S (ticks w))))
    (time.Format_RFC3339 (time.AddDate (clock (S (S (ticks w)))) 0 1 0))
    []
    [Property.mk "Command" ssh_target_command]
    [Evidence.mk ("The command returned an exit code of " +:+ fmt_d exit_code
                  +:+ " for the command: " +:+ ssh_target_command)]
    "All OK.".

Definition failure_finding (uuids : nat -> string) (ssh_config : SSHConfig) (w : world)
    (output : string) : Finding.t :=
  let ssh_target_command := ssh_target_command_of ssh_config in
  Finding.mk (uuids (S (drawn w)))
    "SSH Command Failure"
    ("The command " +:+ ssh_target_command
     +:+ " did not succeed, and produced output: " +:+ output +:+ ".")
    ("Correct the command " +:+ ssh_target_command +:+ ".")
    [uuids (drawn w)].

Definition check_log (clock : nat -> time.Time) (w : world) : LogEntry.t :=
  LogEntry.mk "SSH Command Check" "SSH command check has run successfully"
    (time.Format_RFC3339 (clock (ticks w)))
    (time.Format_RFC3339 (clock (S (S (S (ticks w)))))).

(** The subject [Evaluate] builds from a decoded configuration. *)
Definition subject_of (config : SSHConfig) : Subject.t :=
  Subject.mk (ssh_target_id_of config) SubjectType_INVENTORY_ITEM
    ("SSH target ssh " +:+ ssh_target_id_of config)
    {[ "id" := ssh_target_id_of config ]}.

(** ** Inputs used to run the provider *)

(** The scenario of the specification: no port in the document. *)
Definition nginx_yaml : string :=
  document ["username: svc"; "password: s3cret"; "host: 10.0.0.5";
            "command: systemctl is-active nginx"].
Definition nginx_config : SSHConfig :=
  mkSSHConfig "svc" "s3cret" "10.0.0.5" "systemctl is-active nginx" "".
Definition nginx_execute : ExecuteInput :=
  {| ExecuteInput_Configuration := configuration nginx_yaml |}.
Definition nginx_evaluate : EvaluateInput :=
  {| EvaluateInput_Configuration := configuration nginx_yaml |}.

(** 2024-05-10T10:00:00Z *)
Definition ten_o_clock : time.Time := 1715335200.

(** A document in which the username is missing. *)
Definition no_username_yaml : string :=
  document ["host: 10.0.0.5"; "port: 22"; "command: uptime"].

(** The same target, with the default port left out and written out. *)
Definition nginx_yaml_port22 : string :=
  document ["username: svc"; "password: other"; "host: 10.0.0.5"; "port: 22";
            "command: systemctl is-active nginx"].

(** A decoder that, unlike yaml.v2, rejects the empty document. *)
Definition yaml_strict (data : string) : error + SSHConfig :=
  if decide (data = "") then inl "EOF" else yaml_plain data.

(** The result [Execute] returns after a command that succeeded, and after
    one that failed with the given output and exit code. *)
Definition success_result (clock : nat -> time.Time) (uuids : nat -> string)
    (ssh_config : SSHConfig) (w : world) : ExecuteResult :=
  {| Status := ExecutionStatus_SUCCESS;
     Observations := [success_observation clock uuids ssh_config w 0];
     Findings := [];
     Logs := [check_log clock w] |}.
Definition failure_result (clock : nat -> time.Time) (uuids : nat -> string)
    (ssh_config : SSHConfig) (w : world) (output : string) (exit_code : Z)
    : ExecuteResult :=
  {| Status := ExecutionStatus_SUCCESS;
     Observations := [failure_observation clock uuids ssh_config w exit_code];
     Findings := [failure_finding uuids ssh_config w output];
     Logs := [check_log clock w] |}.

(** Servers for the scenario: the command succeeds, or fails with status 3. *)
Definition nginx_active : ssh.Network := reachable (server "active" None).
Definition nginx_inactive : ssh.Network :=
  reachable (server "inactive" (Some (ssh.ExitError 3))).

(** ** Delimiters in the fields of a configuration *)

(** Whether the character [c] occurs in [s]. *)
Fixpoint occurs (c : ascii) (s : string) : bool :=
  match s with
  | EmptyString => false
  | String c' s' => if decide (c' = c) then true else occurs c s'
  end.

(** The events [RunCommand] adds to the trace, by how far the connection got. *)
Definition dial_only (config : SSHConfig) : list event :=
  [EvDial "tcp" (address_of config) (sshConfig_of config)].
Definition dial_and_close (config : SSHConfig) : list event :=
  [EvDial "tcp" (address_of config) (sshConfig_of config); EvNewSession; EvClientClose].
Definition full_session (config : SSHConfig) : list event :=
  [EvDial "tcp" (address_of config) (sshConfig_of config); EvNewSession;
   EvCombinedOutput (Command config); EvSessionClose; EvClientClose].

(** ** Proof tools *)

#[global] Arguments time.Format_RFC3339 : simpl never.
#[global] Arguments time.AddDate : simpl never.
#[global] Arguments fmt_d : simpl never.
#[global] Arguments String.append : simpl never.
#[global] Arguments effective_port : simpl never.

Ltac run :=
  unfold mbind, M_bind, mret, M_ret, time_Now, uuid_New, log_Printf, log_Fatalf, emit;
  simpl.

(** ** The remote executor *)

Section RunCommand_facts.

Variable network : ssh.Network.
Variable config : SSHConfig.

(** [RunCommand] always returns to its caller; it reads no clock and draws
    no UUID, and only adds events to the trace. *)
Lemma RunCommand_frame (w : world) :
  ∃ r evs, RunCommand network config w
           = (Return r, mkWorld (ticks w) (drawn w) (trace w ++ evs)).
Proof.
  unfold RunCommand. run.
  destruct (network _ _ _) as [err|client]; simpl.
  { eexists _, [_]. reflexivity. }
  destruct (ssh.NewSession client) as [err|session]; simpl.
  { eexists _, [_; _; _]. rewrite <- !app_assoc. reflexivity. }
  destruct (ssh.CombinedOutput session (Command config)) as [output err]; simpl.
  destruct err as [[status|msg]|]; simpl;
    eexists _, [_; _; _; _; _]; rewrite <- !app_assoc; reflexivity.
Qed.

(** The first thing [RunCommand] does is dial [address_of config]. *)
Lemma RunCommand_dials (w : world) :
  ∃ evs, trace (RunCommand network config w).2
         = trace w ++ EvDial "tcp" (address_of config) (sshConfig_of config) :: evs.
Proof.
  unfold RunCommand. run. fold (address_of config) (sshConfig_of config).
  destruct (network _ _ _) as [err|client]; simpl.
  { exists []. reflexivity. }
  destruct (ssh.NewSession client) as [err|session]; simpl.
  { eexists [_; _]. rewrite <- !app_assoc. reflexivity. }
  destruct (ssh.CombinedOutput session (Command config)) as [output err]; simpl.
  destruct err as [[status|msg]|]; simpl;
    eexists [_; _; _; _]; rewrite <- !app_assoc; reflexivity.
Qed.

Lemma RunCommand_dial_failed (w : world) (err : error) :
  network "tcp" (address_of config) (sshConfig_of config) = inl err →
  (RunCommand network config w).1 = Return ("", -1, Some ("failed to dial: " +:+ err)).
Proof.
  intros Hd. unfold RunCommand. run.
  fold (address_of config) (sshConfig_of config). rewrite Hd. reflexivity.
Qed.

Lemma RunCommand_session_failed (w : world) (client : ssh.Client) (err : error) :
  network "tcp" (address_of config) (sshConfig_of config) = inr client →
  ssh.NewSession client = inl err →
  (RunCommand network config w).1
  = Return ("", -1, Some ("failed to create session: " +:+ err)).
Proof.
  intros Hd Hs. unfold RunCommand. run.
  fold (address_of config) (sshConfig_of config). rewrite Hd. simpl.
  rewrite Hs. reflexivity.
Qed.

Lemma RunCommand_dispatched (w : world) (client : ssh.Client) (session : ssh.Session)
    (output : string) (err : option ssh.run_error) :
  network "tcp" (address_of config) (sshConfig_of config) = inr client →
  ssh.NewSession client = inr session →
  ssh.CombinedOutput session (Command config) = (output, err) →
  (RunCommand network config w).1 = Return (result_of_run output err).
Proof.
  intros Hd Hs Hc. unfold RunCommand. run.
  fold (address_of config) (sshConfig_of config). rewrite Hd. simpl.
  rewrite Hs. simpl. rewrite Hc. simpl.
  destruct err as [[status|msg]|]; reflexivity.
Qed.

End RunCommand_facts.

(** What [RunCommand] returns does not depend on the state it is called in. *)
Lemma RunCommand_value_indep (network : ssh.Network) (config : SSHConfig) (w w' : world) :
  (RunCommand network config w).1 = (RunCommand network config w').1.
Proof.
  unfold RunCommand. run.
  destruct (network _ _ _) as [err|client]; simpl; [reflexivity|].
  destruct (ssh.NewSession client) as [err|session]; simpl; [reflexivity|].
  destruct (ssh.CombinedOutput session (Command config)) as [output err]; simpl.
  destruct err as [[status|msg]|]; reflexivity.
Qed.

(** ** The check *)

Section Execute_facts.

Variable yaml_Unmarshal : string -> error + SSHConfig.
Variable network : ssh.Network.
Variable clock : nat -> time.Time.
Variable uuids : nat -> string.

Variable input : ExecuteInput.
Variable yamlString : string.
Variable ssh_config : SSHConfig.
Hypothesis Hpresent : ExecuteInput_Configuration input !! "yaml" = Some yamlString.
Hypothesis Hdecoded : yaml_Unmarshal yamlString = inr ssh_config.

Variable w : world.

Lemma Execute_nonzero (w0 : world) (output : string) (exit_code : Z) :
  (RunCommand network ssh_config w0).1 = Return (output, exit_code, None) →
  exit_code ≠ 0 →
  (Execute yaml_Unmarshal network clock uuids input w).1
  = Return (Some {| Status := ExecutionStatus_SUCCESS;
                    Observations := [failure_observation clock uuids ssh_config w exit_code];
                    Findings := [failure_finding uuids ssh_config w output];
                    Logs := [check_log clock w] |}, None).
Proof.
  intros HR Hne.
  rewrite (RunCommand_value_indep _ _ w0 (at_RunCommand w)) in HR.
  destruct (RunCommand_frame network ssh_config (at_RunCommand w)) as (r & evs & HF).
  rewrite HF in HR. simpl in HR. injection HR as ->.
  unfold Execute, map_index. run. rewrite Hpresent. simpl. rewrite Hdecoded. simpl.
  fold (at_RunCommand w). rewrite HF. simpl.
  destruct (decide (exit_code ≠ 0)); [reflexivity | contradiction].
Qed.

Lemma Execute_zero (w0 : world) (output : string) :
  (RunCommand network ssh_config w0).1 = Return (output, 0, None) →
  (Execute yaml_Unmarshal network clock uuids input w).1
  = Return (Some {| Status := ExecutionStatus_SUCCESS;
                    Observations := [success_observation clock uuids ssh_config w 0];
                    Findings := [];
                    Logs := [check_log clock w] |}, None).
Proof.
  intros HR.
  rewrite (RunCommand_value_indep _ _ w0 (at_RunCommand w)) in HR.
  destruct (RunCommand_frame network ssh_config (at_RunCommand w)) as (r & evs & HF).
  rewrite HF in HR. simpl in HR. injection HR as ->.
  unfold Execute, map_index. run. rewrite Hpresent. simpl. rewrite Hdecoded. simpl.
  fold (at_RunCommand w). rewrite HF. simpl. reflexivity.
Qed.

(** When the executor reports an error, [Execute] logs it and ends the
    process: nothing is returned to the host. *)
Lemma Execute_fatal (w0 : world) (output : string) (exit_code : Z) (e : error) :
  (RunCommand network ssh_config w0).1 = Return (output, exit_code, Some e) →
  ∃ evs,
    Execute yaml_Unmarshal network clock uuids input w
    = (Exit 1,
       mkWorld (S (ticks w)) (S (drawn w))
         (trace w ++ evs ++ [EvLog ("Failed to run command: " +:+ e); EvExit 1])).
Proof.
  intros HR.
  rewrite (RunCommand_value_indep _ _ w0 (at_RunCommand w)) in HR.
  destruct (RunCommand_frame network ssh_config (at_RunCommand w)) as (r & evs & HF).
  rewrite HF in HR. simpl in HR. injection HR as ->.
  exists evs.
  unfold Execute, map_index. run. rewrite Hpresent. simpl. rewrite Hdecoded. simpl.
  fold (at_RunCommand w). rewrite HF. simpl. rewrite <- app_assoc. reflexivity.
Qed.

(** [Execute] hands the decoded configuration to [RunCommand] as it is: the
    address dialled carries the port field of the document, not the
    effective port. *)
Lemma Execute_dials :
  ∃ evs, trace (Execute yaml_Unmarshal network clock uuids input w).2
         = trace w ++ EvDial "tcp" (address_of ssh_config) (sshConfig_of ssh_config) :: evs.
Proof.
  destruct (RunCommand_dials network ssh_config (at_RunCommand w)) as (evs & HD).
  destruct (RunCommand_frame network ssh_config (at_RunCommand w)) as (r & evs' & HF).
  rewrite HF in HD. simpl in HD.
  unfold Execute, map_index. run. rewrite Hpresent. simpl. rewrite Hdecoded. simpl.
  fold (at_RunCommand w). rewrite HF. simpl.
  destruct r as [[output exit_code] [e|]]; simpl.
  - exists (evs ++ [EvLog ("Failed to run command: " +:+ e); EvExit 1]).
    rewrite HD. rewrite <- app_assoc. reflexivity.
  - exists evs. destruct (decide (exit_code ≠ 0)); simpl; exact HD.
Qed.

End Execute_facts.

(** ** The remote executor: exit status against errors *)

(** C6: when the remote process ends with a non-zero exit status, [RunCommand]
    returns the output and that status with a nil error; and [RunCommand]
    returns an error only when the dial (connection and authentication), the
    creation of the session, or the dispatch of the command failed. *)
Theorem RunCommand_exit_status_is_not_an_error
    (network : ssh.Network) (config : SSHConfig) (w : world) :
  (∀ client session output status,
      network "tcp" (address_of config) (sshConfig_of config) = inr client →
      ssh.NewSession client = inr session →
      ssh.CombinedOutput session (Command config)
      = (output, Some (ssh.ExitError status)) →
      status ≠ 0 →
      (RunCommand network config w).1 = Return (output, status, None)) ∧
  (∀ output code e,
      (RunCommand network config w).1 = Return (output, code, Some e) →
      (∃ err, network "tcp" (address_of config) (sshConfig_of config) = inl err
              ∧ e = "failed to dial: " +:+ err) ∨
      (∃ client err,
          network "tcp" (address_of config) (sshConfig_of config) = inr client
          ∧ ssh.NewSession client = inl err
          ∧ e = "failed to create session: " +:+ err) ∨
      (∃ client session out msg,
          network "tcp" (address_of config) (sshConfig_of config) = inr client
          ∧ ssh.NewSession client = inr session
          ∧ ssh.CombinedOutput session (Command config)
            = (out, Some (ssh.OtherError msg))
          ∧ e = "failed to execute command: " +:+ msg)).
Proof.
  split.
  - intros client session output status Hd Hs Hc _.
    rewrite (RunCommand_dispatched _ _ _ _ _ _ _ Hd Hs Hc). reflexivity.
  - intros output code e HR.
    destruct (network "tcp" (address_of config) (sshConfig_of config))
      as [err|client] eqn:Hd.
    { rewrite (RunCommand_dial_failed _ _ _ _ Hd) in HR.
      left. exists err. split; [reflexivity | congruence]. }
    destruct (ssh.NewSession client) as [err|session] eqn:Hs.
    { rewrite (RunCommand_session_failed _ _ _ _ _ Hd Hs) in HR.
      right; left. exists client, err. repeat split; try assumption; congruence. }
    destruct (ssh.CombinedOutput session (Command config)) as [out err] eqn:Hc.
    rewrite (RunCommand_dispatched _ _ _ _ _ _ _ Hd Hs Hc) in HR.
    destruct err as [[status|msg]|]; simpl in HR; try discriminate.
    right; right. exists client, session, out, msg.
    repeat split; try assumption; congruence.
Qed.

Lemma RunCommand_exit_status_is_not_an_error_witness :
  (RunCommand (reachable (server "inactive" (Some (ssh.ExitError 3)))) nginx_config
     world0).1
  = Return ("inactive", 3, None).
Proof.
  apply (proj1 (RunCommand_exit_status_is_not_an_error
                  (reachable (server "inactive" (Some (ssh.ExitError 3))))
                  nginx_config world0)
           (server "inactive" (Some (ssh.ExitError 3)))
           {| ssh.CombinedOutput := fun _ => ("inactive", Some (ssh.ExitError 3)) |}).
  - reflexivity.
  - reflexivity.
  - reflexivity.
  - lia.
Defined.

(** ** Evidence *)

(** C4: when the remote command completes with a non-zero exit code,
    [Execute] returns status SUCCESS, exactly one observation, titled
    "SSH Command Did Not Succeed", and exactly one finding, titled
    "SSH Command Failure", whose related observations are exactly that
    observation's id. *)
Theorem Execute_nonzero_exit_one_observation_one_finding
    (yaml_Unmarshal : string -> error + SSHConfig) (network : ssh.Network)
    (clock : nat -> time.Time) (uuids : nat -> string)
    (input : ExecuteInput) (yamlString : string) (ssh_config : SSHConfig)
    (w w0 : world) (output : string) (exit_code : Z) :
  ExecuteInput_Configuration input !! "yaml" = Some yamlString →
  yaml_Unmarshal yamlString = inr ssh_config →
  (RunCommand network ssh_config w0).1 = Return (output, exit_code, None) →
  exit_code ≠ 0 →
  ∃ res obs fnd,
    returns_result (Execute yaml_Unmarshal network clock uuids input w) res
    ∧ Status res = ExecutionStatus_SUCCESS
    ∧ Observations res = [obs]
    ∧ Observation.Title obs = "SSH Command Did Not Succeed"
    ∧ Findings res = [fnd]
    ∧ Finding.Title fnd = "SSH Command Failure"
    ∧ Finding.RelatedObservations fnd = [Observation.Id obs].
Proof.
  intros Hpresent Hdecoded HR Hne.
  eexists _, _, _. split.
  - unfold returns_result.
    exact (Execute_nonzero _ _ clock uuids _ _ _ Hpresent Hdecoded w _ _ _ HR Hne).
  - simpl. repeat split; reflexivity.
Qed.

Lemma Execute_nonzero_exit_one_observation_one_finding_witness :
  ∃ res obs fnd,
    returns_result
      (Execute yaml_plain (reachable (server "inactive" (Some (ssh.ExitError 3))))
         (ticking ten_o_clock) uuid_seq nginx_execute world0) res
    ∧ Status res = ExecutionStatus_SUCCESS
    ∧ Observations res = [obs]
    ∧ Observation.Title obs = "SSH Command Did Not Succeed"
    ∧ Findings res = [fnd]
    ∧ Finding.Title fnd = "SSH Command Failure"
    ∧ Finding.RelatedObservations fnd = [Observation.Id obs].
Proof.
  apply (Execute_nonzero_exit_one_observation_one_finding
           yaml_plain _ _ _ nginx_execute nginx_yaml nginx_config world0 world0
           "inactive" 3).
  - vm_compute. reflexivity.
  - vm_compute. reflexivity.
  - vm_compute. reflexivity.
  - lia.
Defined.

(** ** Identity discovery *)

Section Evaluate_facts.

Variable yaml_Unmarshal : string -> error + SSHConfig.
Variable input : EvaluateInput.
Variable w : world.

Lemma Evaluate_decoded (yamlString : string) (ssh_config : SSHConfig) :
  EvaluateInput_Configuration input !! "yaml" = Some yamlString →
  yaml_Unmarshal yamlString = inr ssh_config →
  (Evaluate yaml_Unmarshal input w).1
  = Return (Some {| Subjects := [subject_of ssh_config] |}, None).
Proof.
  intros Hpresent Hdecoded.
  unfold Evaluate, map_index. rewrite Hpresent. run. rewrite Hdecoded. reflexivity.
Qed.

Lemma Evaluate_malformed (yamlString : string) (err : error) :
  EvaluateInput_Configuration input !! "yaml" = Some yamlString →
  yaml_Unmarshal yamlString = inl err →
  (Evaluate yaml_Unmarshal input w).1
  = Return (None, Some ("Error unmarshalling YAML: " +:+ err +:+ nl)).
Proof.
  intros Hpresent Hdecoded.
  unfold Evaluate, map_index. rewrite Hpresent. run. rewrite Hdecoded. reflexivity.
Qed.

(** Without the "yaml" key [Evaluate] decodes the empty string first, and
    only then looks at the presence flag. *)
Lemma Evaluate_absent :
  EvaluateInput_Configuration input !! "yaml" = None →
  (Evaluate yaml_Unmarshal input w).1
  = match yaml_Unmarshal "" with
    | inl err => Return (None, Some ("Error unmarshalling YAML: " +:+ err +:+ nl))
    | inr _ => Return (None, Some "yaml parameter is missing")
    end.
Proof.
  intros Habsent.
  unfold Evaluate, map_index. rewrite Habsent. run.
  destruct (yaml_Unmarshal "") as [err|cfg]; reflexivity.
Qed.

(** [Evaluate] reads neither the clock nor the UUID source: what it returns
    is the same in every state. *)
Lemma Evaluate_value_indep (w' : world) :
  (Evaluate yaml_Unmarshal input w).1 = (Evaluate yaml_Unmarshal input w').1.
Proof.
  unfold Evaluate.
  destruct (map_index (EvaluateInput_Configuration input) "yaml") as [yamlString ok].
  run. destruct (yaml_Unmarshal yamlString) as [err|cfg]; [reflexivity|].
  destruct ok; reflexivity.
Qed.

End Evaluate_facts.

Section Execute_config_facts.

Variable yaml_Unmarshal : string -> error + SSHConfig.
Variable network : ssh.Network.
Variable clock : nat -> time.Time.
Variable uuids : nat -> string.
Variable input : ExecuteInput.
Variable w : world.

Lemma Execute_absent :
  ExecuteInput_Configuration input !! "yaml" = None →
  (Execute yaml_Unmarshal network clock uuids input w).1
  = Return (None, Some "yaml parameter is missing").
Proof.
  intros Habsent. unfold Execute, map_index. run. rewrite Habsent. reflexivity.
Qed.

Lemma Execute_malformed (yamlString : string) (err : error) :
  ExecuteInput_Configuration input !! "yaml" = Some yamlString →
  yaml_Unmarshal yamlString = inl err →
  (Execute yaml_Unmarshal network clock uuids input w).1
  = Return (None, Some ("Error unmarshalling YAML: " +:+ err +:+ nl)).
Proof.
  intros Hpresent Hdecoded. unfold Execute, map_index. run.
  rewrite Hpresent. simpl. rewrite Hdecoded. reflexivity.
Qed.

(** Once the document is decoded, [Execute] returns no error value: it
    returns a result or ends the process. *)
Lemma Execute_decoded_no_error (yamlString : string) (ssh_config : SSHConfig) :
  ExecuteInput_Configuration input !! "yaml" = Some yamlString →
  yaml_Unmarshal yamlString = inr ssh_config →
  (∃ res, returns_result (Execute yaml_Unmarshal network clock uuids input w) res)
  ∨ exits_process (Execute yaml_Unmarshal network clock uuids input w).
Proof.
  intros Hpresent Hdecoded.
  destruct (RunCommand_frame network ssh_config w) as ([[output exit_code] [e|]] & evs & HF).
  - right. exists 1.
    destruct (Execute_fatal yaml_Unmarshal network clock uuids input _ _
                Hpresent Hdecoded w w output exit_code e) as (evs' & ->);
      [rewrite HF|]; reflexivity.
  - left. destruct (decide (exit_code = 0)) as [->|Hne].
    + eexists. unfold returns_result.
      apply (Execute_zero yaml_Unmarshal network clock uuids input _ _
               Hpresent Hdecoded w w output). rewrite HF. reflexivity.
    + eexists. unfold returns_result.
      apply (Execute_nonzero yaml_Unmarshal network clock uuids input _ _
               Hpresent Hdecoded w w output exit_code); [|assumption].
      rewrite HF. reflexivity.
Qed.

End Execute_config_facts.

(** ** Configuration errors *)

(** C3, refuted as stated: a document without a username decodes, [Evaluate]
    returns the subject built from the empty username, and [Execute], on a
    network where only port 22 of the host is listening, dials it with the
    empty user name, runs the command and returns its result; neither fails. *)
Lemma missing_username_is_accepted :
  ∃ cfg res res' w',
    yaml_plain no_username_yaml = inr cfg
    ∧ Username cfg = ""
    ∧ returns_result
        (Evaluate yaml_plain
           {| EvaluateInput_Configuration := configuration no_username_yaml |} world0)
        res
    ∧ Subject.Id <$> Subjects res = ["@10.0.0.5:22 uptime"]
    ∧ Execute yaml_plain (listening "10.0.0.5:22" (server "up 3 days" None))
        (frozen ten_o_clock) uuid_seq
        {| ExecuteInput_Configuration := configuration no_username_yaml |} world0
      = (Return (Some res', None), w')
    ∧ trace w'
      = [EvDial "tcp" "10.0.0.5:22"
           (ssh.mkClientConfig "" [ssh.Password ""] ssh.InsecureIgnoreHostKey);
         EvNewSession; EvCombinedOutput "uptime"; EvSessionClose; EvClientClose]
    ∧ Observation.Title <$> Observations res' = ["SSH Command Succeeded"].
Proof.
  eexists _, _, _, _. repeat split; vm_compute; reflexivity.
Qed.

(** C3, amended: [Evaluate] and [Execute] return an error value exactly when
    the configuration has no "yaml" key or its value does not decode.
    Username, host and command are not checked: for every document that
    decodes, whatever these fields are, [Evaluate] returns the subject built
    from them, and [Execute] goes on to run the remote command: it dials with
    the decoded user name and password and, when the command completes,
    returns the evidence for its exit code. *)
Theorem config_error_iff_absent_or_malformed
    (yaml_Unmarshal : string -> error + SSHConfig) (network : ssh.Network)
    (clock : nat -> time.Time) (uuids : nat -> string)
    (Configuration : gmap string string) (w : world) :
  ((∃ e, returns_error
           (Evaluate yaml_Unmarshal {| EvaluateInput_Configuration := Configuration |} w) e)
   ↔ Configuration !! "yaml" = None
     ∨ ∃ yamlString err,
         Configuration !! "yaml" = Some yamlString ∧ yaml_Unmarshal yamlString = inl err)
  ∧ ((∃ e, returns_error
             (Execute yaml_Unmarshal network clock uuids
                {| ExecuteInput_Configuration := Configuration |} w) e)
     ↔ Configuration !! "yaml" = None
       ∨ ∃ yamlString err,
           Configuration !! "yaml" = Some yamlString ∧ yaml_Unmarshal yamlString = inl err)
  ∧ (∀ yamlString ssh_config,
        Configuration !! "yaml" = Some yamlString →
        yaml_Unmarshal yamlString = inr ssh_config →
        returns_result
          (Evaluate yaml_Unmarshal {| EvaluateInput_Configuration := Configuration |} w)
          {| Subjects := [subject_of ssh_config] |}
        ∧ (∃ address evs,
              trace (Execute yaml_Unmarshal network clock uuids
                       {| ExecuteInput_Configuration := Configuration |} w).2
              = trace w ++ EvDial "tcp" address (sshConfig_of ssh_config) :: evs)
        ∧ (∀ output exit_code,
              (RunCommand network ssh_config w).1 = Return (output, exit_code, None) →
              returns_result
                (Execute yaml_Unmarshal network clock uuids
                   {| ExecuteInput_Configuration := Configuration |} w)
                (if decide (exit_code = 0)
                 then success_result clock uuids ssh_config w
                 else failure_result clock uuids ssh_config w output exit_code))).
Proof.
  assert (Hruns : ∀ yamlString ssh_config,
    Configuration !! "yaml" = Some yamlString →
    yaml_Unmarshal yamlString = inr ssh_config →
    (∃ address evs,
        trace (Execute yaml_Unmarshal network clock uuids
                 {| ExecuteInput_Configuration := Configuration |} w).2
        = trace w ++ EvDial "tcp" address (sshConfig_of ssh_config) :: evs)
    ∧ (∀ output exit_code,
          (RunCommand network ssh_config w).1 = Return (output, exit_code, None) →
          returns_result
            (Execute yaml_Unmarshal network clock uuids
               {| ExecuteInput_Configuration := Configuration |} w)
            (if decide (exit_code = 0)
             then success_result clock uuids ssh_config w
             else failure_result clock uuids ssh_config w output exit_code))).
  { intros yamlString ssh_config Hpresent Hdecoded. split.
    - exists (address_of ssh_config).
      exact (Execute_dials yaml_Unmarshal network clock uuids
               {| ExecuteInput_Configuration := Configuration |} yamlString ssh_config
               Hpresent Hdecoded w).
    - intros output exit_code HR. unfold returns_result.
      destruct (decide (exit_code = 0)) as [->|Hne].
      + exact (Execute_zero yaml_Unmarshal network clock uuids
                 {| ExecuteInput_Configuration := Configuration |} yamlString ssh_config
                 Hpresent Hdecoded w w output HR).
      + exact (Execute_nonzero yaml_Unmarshal network clock uuids
                 {| ExecuteInput_Configuration := Configuration |} yamlString ssh_config
                 Hpresent Hdecoded w w output exit_code HR Hne). }
  unfold returns_error.
  destruct (Configuration !! "yaml") as [yamlString|] eqn:Hlookup.
  - destruct (yaml_Unmarshal yamlString) as [err|ssh_config] eqn:Hdecoded.
    + split; [|split].
      * split; [intros _; right; eauto|intros _].
        eexists. apply (Evaluate_malformed _ _ _ yamlString err); assumption.
      * split; [intros _; right; eauto|intros _].
        eexists. apply (Execute_malformed _ _ _ _ _ _ yamlString err); assumption.
      * intros y c [= <-]. congruence.
    + split; [|split].
      * split.
        -- intros [e He].
           rewrite (Evaluate_decoded _ _ _ yamlString ssh_config) in He by assumption.
           discriminate.
        -- intros [|(y & err & [= <-] & ?)]; congruence.
      * split.
        -- intros [e He].
           destruct (Execute_decoded_no_error yaml_Unmarshal network clock uuids
                       {| ExecuteInput_Configuration := Configuration |} w
                       yamlString ssh_config Hlookup Hdecoded)
             as [[res Hres]|[code Hexit]]; unfold returns_result in *; congruence.
        -- intros [|(y & err & [= <-] & ?)]; congruence.
      * intros y c [= <-] Hc. split.
        -- rewrite Hdecoded in Hc. injection Hc as <-.
           apply (Evaluate_decoded _ _ _ yamlString ssh_config); assumption.
        -- apply (Hruns yamlString c); [reflexivity | assumption].
  - split; [|split].
    + split; [intros _; left; reflexivity|intros _].
      rewrite Evaluate_absent by assumption.
      destruct (yaml_Unmarshal ""); eexists; reflexivity.
    + split; [intros _; left; reflexivity|intros _].
      eexists. apply Execute_absent. assumption.
    + intros y c [=].
Qed.

(** ** The subject id *)

(** C8: the id of the subject is a function of the decoded username, host,
    effective port and command alone.  Whatever state [Evaluate] is called in
    it returns the same value, and two configurations that agree on these
    four values (in particular the same configuration, twice) yield subjects
    with the same id. *)
Theorem Evaluate_subject_id_deterministic
    (yaml_Unmarshal : string -> error + SSHConfig)
    (input1 input2 : EvaluateInput) (yaml1 yaml2 : string) (cfg1 cfg2 : SSHConfig)
    (w1 w2 : world) :
  EvaluateInput_Configuration input1 !! "yaml" = Some yaml1 →
  EvaluateInput_Configuration input2 !! "yaml" = Some yaml2 →
  yaml_Unmarshal yaml1 = inr cfg1 →
  yaml_Unmarshal yaml2 = inr cfg2 →
  Username cfg1 = Username cfg2 →
  Host cfg1 = Host cfg2 →
  effective_port (Port cfg1) = effective_port (Port cfg2) →
  Command cfg1 = Command cfg2 →
  (Evaluate yaml_Unmarshal input1 w1).1 = (Evaluate yaml_Unmarshal input1 w2).1
  ∧ ∃ s1 s2,
      returns_result (Evaluate yaml_Unmarshal input1 w1) {| Subjects := [s1] |}
      ∧ returns_result (Evaluate yaml_Unmarshal input2 w2) {| Subjects := [s2] |}
      ∧ Subject.Id s1 = Subject.Id s2
      ∧ Subject.Id s1
        = Username cfg1 +:+ "@" +:+ Host cfg1 +:+ ":" +:+ effective_port (Port cfg1)
          +:+ " " +:+ Command cfg1.
Proof.
  intros Hp1 Hp2 Hd1 Hd2 Hu Hh Hport Hc. split.
  - apply Evaluate_value_indep.
  - exists (subject_of cfg1), (subject_of cfg2). unfold returns_result.
    rewrite (Evaluate_decoded _ _ _ yaml1 cfg1) by assumption.
    rewrite (Evaluate_decoded _ _ _ yaml2 cfg2) by assumption.
    repeat split; try reflexivity.
    simpl. unfold ssh_target_id_of. rewrite Hu, Hh, Hport, Hc. reflexivity.
Qed.

Lemma Evaluate_subject_id_deterministic_witness :
  (Evaluate yaml_plain nginx_evaluate world0).1
  = (Evaluate yaml_plain nginx_evaluate (mkWorld 7 3 [EvExit 0])).1
  ∧ ∃ s1 s2,
      returns_result (Evaluate yaml_plain nginx_evaluate world0) {| Subjects := [s1] |}
      ∧ returns_result
          (Evaluate yaml_plain
             {| EvaluateInput_Configuration := configuration nginx_yaml_port22 |}
             (mkWorld 7 3 [EvExit 0]))
          {| Subjects := [s2] |}
      ∧ Subject.Id s1 = Subject.Id s2
      ∧ Subject.Id s1
        = Username nginx_config +:+ "@" +:+ Host nginx_config +:+ ":"
          +:+ effective_port (Port nginx_config) +:+ " " +:+ Command nginx_config.
Proof.
  apply (Evaluate_subject_id_deterministic yaml_plain nginx_evaluate
           {| EvaluateInput_Configuration := configuration nginx_yaml_port22 |}
           nginx_yaml nginx_yaml_port22 nginx_config
           (mkSSHConfig "svc" "other" "10.0.0.5" "systemctl is-active nginx" "22")
           world0 (mkWorld 7 3 [EvExit 0])).
  - vm_compute. reflexivity.
  - vm_compute. reflexivity.
  - vm_compute. reflexivity.
  - vm_compute. reflexivity.
  - reflexivity.
  - reflexivity.
  - vm_compute. reflexivity.
  - reflexivity.
Defined.

(** C10: the id is not injective.  The username "a@b" on host "c" and the
    username "a" on host "b@c" are different configurations, and [Evaluate]
    gives both subjects the id "a@b@c:22 x". *)
Theorem subject_id_not_injective :
  ∃ yaml1 yaml2 cfg1 cfg2 s1 s2,
    yaml_plain yaml1 = inr cfg1
    ∧ yaml_plain yaml2 = inr cfg2
    ∧ Username cfg1 ≠ Username cfg2
    ∧ Host cfg1 ≠ Host cfg2
    ∧ returns_result
        (Evaluate yaml_plain {| EvaluateInput_Configuration := configuration yaml1 |}
           world0)
        {| Subjects := [s1] |}
    ∧ returns_result
        (Evaluate yaml_plain {| EvaluateInput_Configuration := configuration yaml2 |}
           world0)
        {| Subjects := [s2] |}
    ∧ Subject.Id s1 = Subject.Id s2.
Proof.
  exists (document ["username: a@b"; "host: c"; "command: x"]),
         (document ["username: a"; "host: b@c"; "command: x"]),
         (mkSSHConfig "a@b" "" "c" "x" ""), (mkSSHConfig "a" "" "b@c" "x" ""),
         (subject_of (mkSSHConfig "a@b" "" "c" "x" "")),
         (subject_of (mkSSHConfig "a" "" "b@c" "x" "")).
  repeat split; try (vm_compute; reflexivity); vm_compute; discriminate.
Qed.

(** ** The two validation orders *)

(** C9: [Evaluate] decodes before it looks at the presence flag, [Execute]
    looks at the flag first.  For a decoder that accepts the empty document,
    as yaml.v2 does, the two orders cannot be told apart: for every
    configuration map, one returns a given error exactly when the other does,
    and that error is the missing-key error exactly when the key is absent and
    a decoding error exactly when the value under the key does not decode. *)
Theorem validation_orders_agree
    (yaml_Unmarshal : string -> error + SSHConfig) (network : ssh.Network)
    (clock : nat -> time.Time) (uuids : nat -> string)
    (Configuration : gmap string string) (w w' : world) (e : error) :
  (∃ cfg, yaml_Unmarshal "" = inr cfg) →
    (returns_error
       (Evaluate yaml_Unmarshal {| EvaluateInput_Configuration := Configuration |} w) e
     ↔ returns_error
         (Execute yaml_Unmarshal network clock uuids
            {| ExecuteInput_Configuration := Configuration |} w') e)
    ∧ (returns_error
         (Execute yaml_Unmarshal network clock uuids
            {| ExecuteInput_Configuration := Configuration |} w') e
       ↔ (Configuration !! "yaml" = None ∧ e = "yaml parameter is missing")
         ∨ ∃ yamlString err,
             Configuration !! "yaml" = Some yamlString
             ∧ yaml_Unmarshal yamlString = inl err
             ∧ e = "Error unmarshalling YAML: " +:+ err +:+ nl).
Proof.
  intros [cfg0 Hempty]. unfold returns_error.
  destruct (Configuration !! "yaml") as [yamlString|] eqn:Hlookup.
  - destruct (yaml_Unmarshal yamlString) as [err|ssh_config] eqn:Hdecoded.
    + rewrite (Evaluate_malformed _ _ _ yamlString err) by assumption.
      rewrite (Execute_malformed _ _ _ _ _ _ yamlString err) by assumption.
      split; [split; intros [= <-]; reflexivity|]. split.
      * intros [= <-]. right. exists yamlString, err. auto.
      * intros [[? _]|(y & err' & [= <-] & Hd & ->)]; [discriminate|].
        rewrite Hdecoded in Hd. injection Hd as <-. reflexivity.
    + rewrite (Evaluate_decoded _ _ _ yamlString ssh_config) by assumption.
      split.
      * split; [discriminate|]. intros He.
        destruct (Execute_decoded_no_error yaml_Unmarshal network clock uuids
                    {| ExecuteInput_Configuration := Configuration |} w'
                    yamlString ssh_config Hlookup Hdecoded)
          as [[res Hres]|[code Hexit]]; unfold returns_result in *; congruence.
      * split.
        -- intros He.
           destruct (Execute_decoded_no_error yaml_Unmarshal network clock uuids
                       {| ExecuteInput_Configuration := Configuration |} w'
                       yamlString ssh_config Hlookup Hdecoded)
             as [[res Hres]|[code Hexit]]; unfold returns_result in *; congruence.
        -- intros [[? _]|(y & err' & [= <-] & Hd & _)]; congruence.
  - rewrite Evaluate_absent by assumption. rewrite Hempty.
    rewrite Execute_absent by assumption.
    split; [split; intros [= <-]; reflexivity|]. split.
    + intros [= <-]. left. auto.
    + intros [[_ ->]|(y & err & [=] & _)]. reflexivity.
Qed.

Lemma validation_orders_agree_witness :
  (returns_error
     (Evaluate yaml_plain {| EvaluateInput_Configuration := ∅ |} world0)
     "yaml parameter is missing"
   ↔ returns_error
       (Execute yaml_plain unreachable (frozen ten_o_clock) uuid_seq
          {| ExecuteInput_Configuration := ∅ |} world0)
       "yaml parameter is missing")
  ∧ (returns_error
       (Execute yaml_plain unreachable (frozen ten_o_clock) uuid_seq
          {| ExecuteInput_Configuration := ∅ |} world0)
       "yaml parameter is missing"
     ↔ ((∅ : gmap string string) !! "yaml" = None
        ∧ "yaml parameter is missing" = "yaml parameter is missing")
       ∨ ∃ yamlString err,
           (∅ : gmap string string) !! "yaml" = Some yamlString
           ∧ yaml_plain yamlString = inl err
           ∧ "yaml parameter is missing"
             = "Error unmarshalling YAML: " +:+ err +:+ nl).
Proof.
  apply (validation_orders_agree yaml_plain unreachable (frozen ten_o_clock) uuid_seq
           ∅ world0 world0 "yaml parameter is missing").
  exists SSHConfig_zero. vm_compute. reflexivity.
Defined.

(** The assumption on the decoder is needed: with a decoder that rejects the
    empty document, a configuration without the key gets the decoding error
    from [Evaluate] and the missing-key error from [Execute]. *)
Lemma validation_orders_differ_on_strict_decoder :
  returns_error (Evaluate yaml_strict {| EvaluateInput_Configuration := ∅ |} world0)
    ("Error unmarshalling YAML: EOF" +:+ nl)
  ∧ returns_error
      (Execute yaml_strict unreachable (frozen ten_o_clock) uuid_seq
         {| ExecuteInput_Configuration := ∅ |} world0)
      "yaml parameter is missing".
Proof.
  split; vm_compute; reflexivity.
Qed.

(** ** Evidence of a successful command *)

(** C5, refuted as stated: on exit code 0 the remarks of the observation are
    "All OK." with a full stop, not "All OK". *)
Lemma success_remarks_have_full_stop :
  ∃ res obs,
    (RunCommand (reachable (server "active" None)) nginx_config world0).1
    = Return ("active", 0, None)
    ∧ returns_result
        (Execute yaml_plain (reachable (server "active" None)) (frozen ten_o_clock)
           uuid_seq nginx_execute world0) res
    ∧ Observations res = [obs]
    ∧ Observation.Remarks obs = "All OK."
    ∧ Observation.Remarks obs ≠ "All OK".
Proof.
  eexists _, _. repeat split; try (vm_compute; reflexivity).
  vm_compute. discriminate.
Qed.

(** C5, amended: when the remote command completes with exit code 0,
    [Execute] returns status SUCCESS, no finding and exactly one observation,
    titled "SSH Command Succeeded", whose remarks are "All OK." and whose
    evidence text states the exit code 0 and the ssh command line, which ends
    with the configured command. *)
Theorem Execute_zero_exit_one_observation_no_finding
    (yaml_Unmarshal : string -> error + SSHConfig) (network : ssh.Network)
    (clock : nat -> time.Time) (uuids : nat -> string)
    (input : ExecuteInput) (yamlString : string) (ssh_config : SSHConfig)
    (w w0 : world) (output : string) :
  ExecuteInput_Configuration input !! "yaml" = Some yamlString →
  yaml_Unmarshal yamlString = inr ssh_config →
  (RunCommand network ssh_config w0).1 = Return (output, 0, None) →
  ∃ res obs,
    returns_result (Execute yaml_Unmarshal network clock uuids input w) res
    ∧ Status res = ExecutionStatus_SUCCESS
    ∧ Findings res = []
    ∧ Observations res = [obs]
    ∧ Observation.Title obs = "SSH Command Succeeded"
    ∧ Observation.Remarks obs = "All OK."
    ∧ Evidence.Description <$> Observation.RelevantEvidence obs
      = ["The command returned an exit code of 0 for the command: ssh -p "
         +:+ effective_port (Port ssh_config) +:+ " " +:+ Username ssh_config
         +:+ "@" +:+ Host ssh_config +:+ " " +:+ Command ssh_config].
Proof.
  intros Hpresent Hdecoded HR.
  eexists _, _. split.
  - unfold returns_result.
    exact (Execute_zero _ _ clock uuids _ _ _ Hpresent Hdecoded w _ _ HR).
  - simpl. repeat split; reflexivity.
Qed.

Lemma Execute_zero_exit_one_observation_no_finding_witness :
  ∃ res obs,
    returns_result
      (Execute yaml_plain (reachable (server "active" None)) (ticking ten_o_clock)
         uuid_seq nginx_execute world0) res
    ∧ Status res = ExecutionStatus_SUCCESS
    ∧ Findings res = []
    ∧ Observations res = [obs]
    ∧ Observation.Title obs = "SSH Command Succeeded"
    ∧ Observation.Remarks obs = "All OK."
    ∧ Evidence.Description <$> Observation.RelevantEvidence obs
      = ["The command returned an exit code of 0 for the command: ssh -p "
         +:+ effective_port (Port nginx_config) +:+ " " +:+ Username nginx_config
         +:+ "@" +:+ Host nginx_config +:+ " " +:+ Command nginx_config].
Proof.
  apply (Execute_zero_exit_one_observation_no_finding
           yaml_plain _ _ _ nginx_execute nginx_yaml nginx_config world0 world0
           "active").
  - vm_compute. reflexivity.
  - vm_compute. reflexivity.
  - vm_compute. reflexivity.
Defined.

(** ** Expiry *)

(** The two timestamps of the observation come from two successive readings
    of the clock: when the clock did not advance between them, the expiry is
    one month after the collection time. *)
Lemma expires_one_month_after_collected_if_clock_stands
    (clock : nat -> time.Time) (uuids : nat -> string) (ssh_config : SSHConfig)
    (w : world) (exit_code : Z) :
  clock (S (S (ticks w))) = clock (S (ticks w)) →
  ∃ collected,
    Observation.Collected (failure_observation clock uuids ssh_config w exit_code)
    = time.Format_RFC3339 collected
    ∧ Observation.Expires (failure_observation clock uuids ssh_config w exit_code)
      = time.Format_RFC3339 (time.AddDate collected 0 1 0)
    ∧ Observation.Collected (success_observation clock uuids ssh_config w exit_code)
      = time.Format_RFC3339 collected
    ∧ Observation.Expires (success_observation clock uuids ssh_config w exit_code)
      = time.Format_RFC3339 (time.AddDate collected 0 1 0).
Proof.
  intros Hstands. exists (clock (S (ticks w))). simpl. rewrite Hstands. auto.
Qed.

(** C7, the code at a clock that advances by one second a reading: on both
    branches the observation is collected at 10:00:01 and expires one month
    after 10:00:02, which is not one month after the collection time. *)
Theorem expires_is_taken_from_a_later_clock_reading :
  ∃ res obs res' obs',
    returns_result
      (Execute yaml_plain (reachable (server "active" None)) (ticking ten_o_clock)
         uuid_seq nginx_execute world0) res
    ∧ Observations res = [obs]
    ∧ Observation.Collected obs = time.Format_RFC3339 (ticking ten_o_clock 1)
    ∧ Observation.Collected obs = "2024-05-10T10:00:01Z"
    ∧ Observation.Expires obs = "2024-06-10T10:00:02Z"
    ∧ returns_result
        (Execute yaml_plain (reachable (server "inactive" (Some (ssh.ExitError 3))))
           (ticking ten_o_clock) uuid_seq nginx_execute world0) res'
    ∧ Observations res' = [obs']
    ∧ Observation.Collected obs' = time.Format_RFC3339 (ticking ten_o_clock 1)
    ∧ Observation.Collected obs' = "2024-05-10T10:00:01Z"
    ∧ Observation.Expires obs' = "2024-06-10T10:00:02Z"
    ∧ time.Format_RFC3339 (time.AddDate (ticking ten_o_clock 1) 0 1 0)
      = "2024-06-10T10:00:01Z".
Proof.
  eexists _, _, _, _. repeat split; vm_compute; reflexivity.
Qed.

(** ** The default port and the dialled address *)

(** C1, the code at a document without a port, on a network where only
    port 22 of the host is listening: the subject id carries the effective
    port 22, but [Execute] dials "10.0.0.5:" with the empty port of the
    document, the dial is refused and the process ends. *)
Theorem Execute_dials_the_port_of_the_document :
  yaml_plain nginx_yaml = inr nginx_config
  ∧ Port nginx_config = ""
  ∧ (Evaluate yaml_plain nginx_evaluate world0).1
    = Return (Some {| Subjects := [subject_of nginx_config] |}, None)
  ∧ Subject.Id (subject_of nginx_config) = "svc@10.0.0.5:22 systemctl is-active nginx"
  ∧ Execute yaml_plain (listening "10.0.0.5:22" (server "active" None))
      (frozen ten_o_clock) uuid_seq nginx_execute world0
    = (Exit 1,
       mkWorld 1 1
         [EvDial "tcp" "10.0.0.5:"
            (ssh.mkClientConfig "svc" [ssh.Password "s3cret"] ssh.InsecureIgnoreHostKey);
          EvLog ("Failed to run command: failed to dial: "
                 +:+ "dial tcp 10.0.0.5:: connect: connection refused");
          EvExit 1]).
Proof.
  repeat split; vm_compute; reflexivity.
Qed.

(** ** Errors of the executor *)

(** C2, the code at a refused connection: [Execute] returns nothing to the
    host, neither a result nor an error value; it logs the failure and ends
    the process with exit code 1. *)
Theorem Execute_ends_the_process_on_executor_error :
  (RunCommand unreachable
     (mkSSHConfig "svc" "other" "10.0.0.5" "systemctl is-active nginx" "22") world0).1
  = Return ("", -1,
            Some "failed to dial: dial tcp 10.0.0.5:22: connect: connection refused")
  ∧ Execute yaml_plain unreachable (frozen ten_o_clock) uuid_seq
      {| ExecuteInput_Configuration := configuration nginx_yaml_port22 |} world0
    = (Exit 1,
       mkWorld 1 1
         [EvDial "tcp" "10.0.0.5:22"
            (ssh.mkClientConfig "svc" [ssh.Password "other"] ssh.InsecureIgnoreHostKey);
          EvLog ("Failed to run command: failed to dial: "
                 +:+ "dial tcp 10.0.0.5:22: connect: connection refused");
          EvExit 1])
  ∧ exits_process
      (Execute yaml_plain unreachable (frozen ten_o_clock) uuid_seq
         {| ExecuteInput_Configuration := configuration nginx_yaml_port22 |} world0)
  ∧ ¬ ∃ e, returns_error
             (Execute yaml_plain unreachable (frozen ten_o_clock) uuid_seq
                {| ExecuteInput_Configuration := configuration nginx_yaml_port22 |}
                world0) e.
Proof.
  repeat split; try (vm_compute; reflexivity).
  - exists 1. vm_compute. reflexivity.
  - intros [e He]. vm_compute in He. discriminate.
Qed.

(** * Further properties of the provider *)

(** ** Strings *)

Lemma append_nil_r (s : string) : s +:+ "" = s.
Proof. induction s as [|c s IH]; [reflexivity|]. cbv [String.append]. fold String.append. by rewrite IH. Qed.

Lemma append_assoc (a b c : string) : (a +:+ b) +:+ c = a +:+ (b +:+ c).
Proof.
  induction a as [|x a IH]; [reflexivity|].
  cbv [String.append]. fold String.append. by rewrite IH.
Qed.

Lemma append_length (a b : string) :
  String.length (a +:+ b) = (String.length a + String.length b)%nat.
Proof.
  induction a as [|x a IH]; [reflexivity|].
  cbv [String.append String.length]. fold String.append. fold String.length.
  by rewrite IH.
Qed.

(** A common suffix can be cancelled. *)
Lemma append_cancel_r (a b r : string) : a +:+ r = b +:+ r → a = b.
Proof.
  revert b. induction a as [|x a IH]; intros [|y b] H.
  - reflexivity.
  - apply (f_equal String.length) in H. rewrite !append_length in H.
    simpl in H. lia.
  - apply (f_equal String.length) in H. rewrite !append_length in H.
    simpl in H. lia.
  - cbv [String.append] in H. fold String.append in H.
    injection H as -> H. f_equal. by apply IH.
Qed.

(** A string is cut in one way only at the first occurrence of a character. *)
Lemma cut_at_delimiter (c : ascii) (a a' b b' : string) :
  occurs c a = false → occurs c a' = false →
  a +:+ String c b = a' +:+ String c b' → a = a' ∧ b = b'.
Proof.
  revert a'. induction a as [|x a IH]; intros [|y a'] Ha Ha' H.
  - cbv [String.append] in H. by injection H as ->.
  - cbv [String.append] in H. fold String.append in H. injection H as <- _.
    simpl in Ha'. by case_decide.
  - cbv [String.append] in H. fold String.append in H. injection H as -> _.
    simpl in Ha. by case_decide.
  - cbv [String.append] in H. fold String.append in H. injection H as -> H.
    simpl in Ha, Ha'. case_decide; [done|].
    destruct (IH a' Ha Ha' H) as [-> ->]. done.
Qed.

(** ** The remote executor: what it leaves behind *)

(** The trace [RunCommand] leaves, by how far the connection got. *)
Lemma RunCommand_world (network : ssh.Network) (config : SSHConfig) (w : world) :
  (RunCommand network config w).2
  = mkWorld (ticks w) (drawn w)
      (trace w ++
       match network "tcp" (address_of config) (sshConfig_of config) with
       | inl _ => dial_only config
       | inr client =>
         match ssh.NewSession client with
         | inl _ => dial_and_close config
         | inr _ => full_session config
         end
       end).
Proof.
  unfold RunCommand. run. fold (address_of config) (sshConfig_of config).
  destruct (network _ _ _) as [err|client]; simpl; [reflexivity|].
  destruct (ssh.NewSession client) as [err|session]; simpl.
  { rewrite <- !app_assoc. reflexivity. }
  destruct (ssh.CombinedOutput session (Command config)) as [output err]; simpl.
  destruct err as [[status|msg]|]; simpl; rewrite <- !app_assoc; reflexivity.
Qed.


(** X2: when [RunCommand] returns an error, the output it returns is empty and
    the exit code is -1; output the command produced before the failure is
    dropped. *)
Theorem RunCommand_error_drops_output
    (network : ssh.Network) (config : SSHConfig) (w : world)
    (output : string) (code : Z) (e : error) :
  (RunCommand network config w).1 = Return (output, code, Some e) →
  output = "" ∧ code = -1.
Proof.
  intros HR.
  destruct (network "tcp" (address_of config) (sshConfig_of config))
    as [err|client] eqn:Hd.
  { rewrite (RunCommand_dial_failed _ _ _ _ Hd) in HR. by injection HR as <- <- _. }
  destruct (ssh.NewSession client) as [err|session] eqn:Hs.
  { rewrite (RunCommand_session_failed _ _ _ _ _ Hd Hs) in HR.
    by injection HR as <- <- _. }
  destruct (ssh.CombinedOutput session (Command config)) as [out err] eqn:Hc.
  rewrite (RunCommand_dispatched _ _ _ _ _ _ _ Hd Hs Hc) in HR.
  destruct err as [[status|msg]|]; simpl in HR; try discriminate.
  by injection HR as <- <- _.
Qed.

Lemma RunCommand_error_drops_output_witness :
  ("" : string) = "" ∧ (-1 : Z) = -1.
Proof.
  apply (RunCommand_error_drops_output
           (reachable (server "partial output" (Some (ssh.OtherError "EOF"))))
           nginx_config world0 "" (-1) "failed to execute command: EOF").
  vm_compute. reflexivity.
Defined.

(** ** The check: what a returned result looks like *)

Section Execute_inversion.

Variable yaml_Unmarshal : string -> error + SSHConfig.
Variable network : ssh.Network.
Variable clock : nat -> time.Time.
Variable uuids : nat -> string.
Variable input : ExecuteInput.
Variable w : world.

(** Every result [Execute] returns comes from a decoded configuration and a
    remote command that completed, and is built from them as follows. *)
Lemma Execute_returns_result_inv (res : ExecuteResult) :
  returns_result (Execute yaml_Unmarshal network clock uuids input w) res →
  ∃ yamlString ssh_config output exit_code,
    ExecuteInput_Configuration input !! "yaml" = Some yamlString
    ∧ yaml_Unmarshal yamlString = inr ssh_config
    ∧ (RunCommand network ssh_config w).1 = Return (output, exit_code, None)
    ∧ res = {| Status := ExecutionStatus_SUCCESS;
               Observations :=
                 [if decide (exit_code = 0)
                  then success_observation clock uuids ssh_config w 0
                  else failure_observation clock uuids ssh_config w exit_code];
               Findings :=
                 if decide (exit_code = 0) then []
                 else [failure_finding uuids ssh_config w output];
               Logs := [check_log clock w] |}.
Proof.
  unfold returns_result. intros Hres.
  destruct (ExecuteInput_Configuration input !! "yaml") as [yamlString|] eqn:Hpresent;
    [|rewrite Execute_absent in Hres by assumption; discriminate].
  destruct (yaml_Unmarshal yamlString) as [err|ssh_config] eqn:Hdecoded;
    [rewrite (Execute_malformed _ _ _ _ _ _ yamlString err) in Hres by assumption;
     discriminate|].
  destruct (RunCommand_frame network ssh_config w)
    as ([[output exit_code] [e|]] & evs & HF).
  - destruct (Execute_fatal yaml_Unmarshal network clock uuids input _ _
                Hpresent Hdecoded w w output exit_code e) as (evs' & HE);
      [rewrite HF; reflexivity|].
    rewrite HE in Hres. discriminate.
  - exists yamlString, ssh_config, output, exit_code.
    split; [reflexivity|]. split; [assumption|].
    split; [rewrite HF; reflexivity|].
    destruct (decide (exit_code = 0)) as [->|Hne].
    + rewrite (Execute_zero yaml_Unmarshal network clock uuids input _ _
                 Hpresent Hdecoded w w output) in Hres by (rewrite HF; reflexivity).
      by injection Hres as <-.
    + rewrite (Execute_nonzero yaml_Unmarshal network clock uuids input _ _
                 Hpresent Hdecoded w w output exit_code) in Hres
        by (try assumption; rewrite HF; reflexivity).
      by injection Hres as <-.
Qed.

(** The state [Execute] leaves when the remote command completed: four clock
    readings, one UUID on success and two on failure, and on the trace the
    events of [RunCommand] only. *)
Lemma Execute_completed_world (yamlString : string) (ssh_config : SSHConfig)
    (output : string) (exit_code : Z) :
  ExecuteInput_Configuration input !! "yaml" = Some yamlString →
  yaml_Unmarshal yamlString = inr ssh_config →
  (RunCommand network ssh_config w).1 = Return (output, exit_code, None) →
  (Execute yaml_Unmarshal network clock uuids input w).2
  = mkWorld (S (S (S (S (ticks w)))))
      (if decide (exit_code = 0) then S (drawn w) else S (S (drawn w)))
      (trace (RunCommand network ssh_config w).2).
Proof.
  intros Hpresent Hdecoded HR.
  rewrite (RunCommand_value_indep _ _ w (at_RunCommand w)) in HR.
  rewrite RunCommand_world.
  pose proof (RunCommand_world network ssh_config (at_RunCommand w)) as HW.
  destruct (RunCommand network ssh_config (at_RunCommand w)) as [o w2] eqn:HF.
  simpl in HR, HW. subst o w2.
  unfold Execute, map_index. run. rewrite Hpresent. simpl. rewrite Hdecoded. simpl.
  fold (at_RunCommand w). rewrite HF. simpl.
  destruct (decide (exit_code ≠ 0)), (decide (exit_code = 0)); try done.
Qed.

End Execute_inversion.

(** ** Identity discovery: effects *)

(** X3: [Evaluate] always returns to its caller.  It never dials, reads no
    clock and draws no UUID; its one effect is a log line that carries the
    whole YAML text of the configuration, credentials included (the empty
    text when the key is absent). *)
Theorem Evaluate_only_logs_the_configuration
    (yaml_Unmarshal : string -> error + SSHConfig) (input : EvaluateInput) (w : world) :
  ∃ r,
    Evaluate yaml_Unmarshal input w
    = (Return r,
       mkWorld (ticks w) (drawn w)
         (trace w ++
          [EvLog ("yamlString: "
                  +:+ default "" (EvaluateInput_Configuration input !! "yaml"))])).
Proof.
  unfold Evaluate, map_index.
  destruct (EvaluateInput_Configuration input !! "yaml") as [yamlString|]; run.
  - destruct (yaml_Unmarshal yamlString); eexists; reflexivity.
  - destruct (yaml_Unmarshal ""); eexists; reflexivity.
Qed.

(** ** The check: effects *)

(** X4: when [Execute] returns an error, the configuration was rejected
    before anything else happened: no connection was attempted, nothing was
    logged and no UUID was drawn; only the start time was read. *)
Theorem Execute_config_error_touches_nothing
    (yaml_Unmarshal : string -> error + SSHConfig) (network : ssh.Network)
    (clock : nat -> time.Time) (uuids : nat -> string)
    (input : ExecuteInput) (w : world) (e : error) :
  returns_error (Execute yaml_Unmarshal network clock uuids input w) e →
  (Execute yaml_Unmarshal network clock uuids input w).2
  = mkWorld (S (ticks w)) (drawn w) (trace w).
Proof.
  intros He.
  destruct (ExecuteInput_Configuration input !! "yaml") as [yamlString|] eqn:Hpresent.
  - destruct (yaml_Unmarshal yamlString) as [err|ssh_config] eqn:Hdecoded.
    + unfold Execute, map_index. run. rewrite Hpresent. simpl. by rewrite Hdecoded.
    + destruct (Execute_decoded_no_error yaml_Unmarshal network clock uuids input w
                  yamlString ssh_config Hpresent Hdecoded)
        as [[res Hres]|[code Hexit]];
        unfold returns_result, returns_error in *; congruence.
  - unfold Execute, map_index. run. by rewrite Hpresent.
Qed.

Lemma Execute_config_error_touches_nothing_witness :
  (Execute yaml_plain nginx_active (ticking ten_o_clock) uuid_seq
     {| ExecuteInput_Configuration := configuration "not a mapping" |} world0).2
  = mkWorld 1 0 [].
Proof.
  apply (Execute_config_error_touches_nothing yaml_plain nginx_active
           (ticking ten_o_clock) uuid_seq
           {| ExecuteInput_Configuration := configuration "not a mapping" |} world0
           ("Error unmarshalling YAML: yaml: unmarshal errors: cannot unmarshal "
            +:+ "`not a mapping` into main.SSHConfig" +:+ nl)).
  vm_compute. reflexivity.
Defined.

(** X5: [Execute] ends the process exactly when the configuration decoded and
    [RunCommand] reported an error; the exit code is then 1, and the last
    things on the trace are the log line "Failed to run command: ..." and the
    exit. *)
Theorem Execute_exits_iff_executor_error
    (yaml_Unmarshal : string -> error + SSHConfig) (network : ssh.Network)
    (clock : nat -> time.Time) (uuids : nat -> string)
    (input : ExecuteInput) (w : world) :
  (exits_process (Execute yaml_Unmarshal network clock uuids input w)
   ↔ ∃ yamlString ssh_config output code e,
       ExecuteInput_Configuration input !! "yaml" = Some yamlString
       ∧ yaml_Unmarshal yamlString = inr ssh_config
       ∧ (RunCommand network ssh_config w).1 = Return (output, code, Some e))
  ∧ (∀ yamlString ssh_config output code e,
        ExecuteInput_Configuration input !! "yaml" = Some yamlString →
        yaml_Unmarshal yamlString = inr ssh_config →
        (RunCommand network ssh_config w).1 = Return (output, code, Some e) →
        ∃ evs,
          Execute yaml_Unmarshal network clock uuids input w
          = (Exit 1,
             mkWorld (S (ticks w)) (S (drawn w))
               (trace w ++ evs
                ++ [EvLog ("Failed to run command: " +:+ e); EvExit 1]))).
Proof.
  split; [split|].
  - intros [c Hexit].
    destruct (ExecuteInput_Configuration input !! "yaml") as [yamlString|] eqn:Hpresent;
      [|rewrite Execute_absent in Hexit by assumption; discriminate].
    destruct (yaml_Unmarshal yamlString) as [err|ssh_config] eqn:Hdecoded;
      [rewrite (Execute_malformed _ _ _ _ _ _ yamlString err) in Hexit by assumption;
       discriminate|].
    destruct (RunCommand_frame network ssh_config w)
      as ([[output exit_code] [e|]] & evs & HF).
    + exists yamlString, ssh_config, output, exit_code, e.
      rewrite HF. auto.
    + destruct (decide (exit_code = 0)) as [->|Hne].
      * rewrite (Execute_zero yaml_Unmarshal network clock uuids input _ _
                   Hpresent Hdecoded w w output) in Hexit by (rewrite HF; reflexivity).
        discriminate.
      * rewrite (Execute_nonzero yaml_Unmarshal network clock uuids input _ _
                   Hpresent Hdecoded w w output exit_code) in Hexit
          by (try assumption; rewrite HF; reflexivity).
        discriminate.
  - intros (yamlString & ssh_config & output & code & e & Hpresent & Hdecoded & HR).
    destruct (Execute_fatal yaml_Unmarshal network clock uuids input _ _
                Hpresent Hdecoded w w output code e HR) as (evs & ->).
    by exists 1.
  - intros yamlString ssh_config output code e Hpresent Hdecoded HR.
    exact (Execute_fatal yaml_Unmarshal network clock uuids input _ _
             Hpresent Hdecoded w w output code e HR).
Qed.

(** X6: every result [Execute] returns has status SUCCESS, exactly one
    observation and exactly one log entry, and either no finding, under the
    title "SSH Command Succeeded", or exactly one finding, under the title
    "SSH Command Did Not Succeed", whose related observations are exactly the
    id of that observation.  The observation carries no link and one
    property, "Command", with the ssh command line. *)
Theorem Execute_result_invariant
    (yaml_Unmarshal : string -> error + SSHConfig) (network : ssh.Network)
    (clock : nat -> time.Time) (uuids : nat -> string)
    (input : ExecuteInput) (w : world) (res : ExecuteResult) :
  returns_result (Execute yaml_Unmarshal network clock uuids input w) res →
  Status res = ExecutionStatus_SUCCESS
  ∧ length (Logs res) = 1%nat
  ∧ ∃ obs,
      Observations res = [obs]
      ∧ Observation.Links obs = []
      ∧ (∃ cmd, Observation.Props obs = [Property.mk "Command" cmd])
      ∧ ((Findings res = [] ∧ Observation.Title obs = "SSH Command Succeeded")
         ∨ ∃ fnd,
             Findings res = [fnd]
             ∧ Observation.Title obs = "SSH Command Did Not Succeed"
             ∧ Finding.RelatedObservations fnd = [Observation.Id obs]).
Proof.
  intros Hres.
  destruct (Execute_returns_result_inv _ _ _ _ _ _ _ Hres)
    as (yamlString & ssh_config & output & exit_code & _ & _ & _ & ->).
  simpl. split; [reflexivity|]. split; [reflexivity|].
  destruct (decide (exit_code = 0)).
  - eexists. split; [reflexivity|]. simpl. split; [reflexivity|].
    split; [eexists; reflexivity|]. left. auto.
  - eexists. split; [reflexivity|]. simpl. split; [reflexivity|].
    split; [eexists; reflexivity|]. right. eexists. auto.
Qed.

Lemma Execute_result_invariant_witness :
  Status (failure_result (ticking ten_o_clock) uuid_seq nginx_config world0 "inactive" 3)
  = ExecutionStatus_SUCCESS
  ∧ length (Logs (failure_result (ticking ten_o_clock) uuid_seq nginx_config world0
                    "inactive" 3)) = 1%nat
  ∧ ∃ obs,
      Observations (failure_result (ticking ten_o_clock) uuid_seq nginx_config world0
                      "inactive" 3) = [obs]
      ∧ Observation.Links obs = []
      ∧ (∃ cmd, Observation.Props obs = [Property.mk "Command" cmd])
      ∧ ((Findings (failure_result (ticking ten_o_clock) uuid_seq nginx_config world0
                      "inactive" 3) = []
          ∧ Observation.Title obs = "SSH Command Succeeded")
         ∨ ∃ fnd,
             Findings (failure_result (ticking ten_o_clock) uuid_seq nginx_config
                         world0 "inactive" 3) = [fnd]
             ∧ Observation.Title obs = "SSH Command Did Not Succeed"
             ∧ Finding.RelatedObservations fnd = [Observation.Id obs]).
Proof.
  apply (Execute_result_invariant yaml_plain nginx_inactive (ticking ten_o_clock)
           uuid_seq nginx_execute world0).
  vm_compute. reflexivity.
Defined.

(** ** The check: evidence *)

(** X7: the evidence text records the exit code faithfully: two runs of the
    same configuration whose observations carry the same evidence ended with
    the same exit code. *)
Theorem Execute_evidence_determines_exit_code
    (yaml_Unmarshal : string -> error + SSHConfig) (network1 network2 : ssh.Network)
    (clock1 clock2 : nat -> time.Time) (uuids1 uuids2 : nat -> string)
    (input : ExecuteInput) (yamlString : string) (ssh_config : SSHConfig)
    (w1 w2 : world) (output1 output2 : string) (code1 code2 : Z)
    (res1 res2 : ExecuteResult) :
  ExecuteInput_Configuration input !! "yaml" = Some yamlString →
  yaml_Unmarshal yamlString = inr ssh_config →
  (RunCommand network1 ssh_config w1).1 = Return (output1, code1, None) →
  (RunCommand network2 ssh_config w2).1 = Return (output2, code2, None) →
  returns_result (Execute yaml_Unmarshal network1 clock1 uuids1 input w1) res1 →
  returns_result (Execute yaml_Unmarshal network2 clock2 uuids2 input w2) res2 →
  Observation.RelevantEvidence <$> Observations res1
  = Observation.RelevantEvidence <$> Observations res2 →
  code1 = code2.
Proof.
  intros Hpresent Hdecoded HR1 HR2 Hres1 Hres2 Hev.
  assert (Hshape : ∀ network clock uuids w output code res,
    (RunCommand network ssh_config w).1 = Return (output, code, None) →
    returns_result (Execute yaml_Unmarshal network clock uuids input w) res →
    Observation.RelevantEvidence <$> Observations res
    = [[Evidence.mk ("The command returned an exit code of " +:+ fmt_d code
                     +:+ " for the command: " +:+ ssh_target_command_of ssh_config)]]).
  { intros network clock uuids w output code res HR Hres.
    unfold returns_result in Hres.
    destruct (decide (code = 0)) as [->|Hne].
    - rewrite (Execute_zero yaml_Unmarshal network clock uuids input _ _
                 Hpresent Hdecoded w w output HR) in Hres.
      by injection Hres as <-.
    - rewrite (Execute_nonzero yaml_Unmarshal network clock uuids input _ _
                 Hpresent Hdecoded w w output code HR Hne) in Hres.
      by injection Hres as <-. }
  rewrite (Hshape _ _ _ _ _ _ _ HR1 Hres1), (Hshape _ _ _ _ _ _ _ HR2 Hres2) in Hev.
  injection Hev as Hev.
  apply String.app_inj in Hev. apply append_cancel_r in Hev.
  unfold fmt_d in Hev. by apply (inj pretty) in Hev.
Qed.

Lemma Execute_evidence_determines_exit_code_witness : (3 : Z) = 3.
Proof.
  apply (Execute_evidence_determines_exit_code yaml_plain nginx_inactive
           (reachable (server "failed" (Some (ssh.ExitError 3))))
           (ticking ten_o_clock) (frozen ten_o_clock) uuid_seq uuid_seq
           nginx_execute nginx_yaml nginx_config world0 (mkWorld 5 2 [])
           "inactive" "failed" 3 3
           (failure_result (ticking ten_o_clock) uuid_seq nginx_config world0
              "inactive" 3)
           (failure_result (frozen ten_o_clock) uuid_seq nginx_config (mkWorld 5 2 [])
              "failed" 3)).
  - vm_compute. reflexivity.
  - vm_compute. reflexivity.
  - vm_compute. reflexivity.
  - vm_compute. reflexivity.
  - vm_compute. reflexivity.
  - vm_compute. reflexivity.
  - vm_compute. reflexivity.
Defined.

(** X8: the password of the configuration and the output of a command that
    succeeded never reach the result: two configurations that differ in the
    password only, run at the same clock and UUID state against servers that
    both report success, give the same result whatever the servers printed. *)
Theorem Execute_success_hides_password_and_output
    (yaml_Unmarshal : string -> error + SSHConfig) (network1 network2 : ssh.Network)
    (clock : nat -> time.Time) (uuids : nat -> string)
    (input1 input2 : ExecuteInput) (yaml1 yaml2 : string) (cfg1 cfg2 : SSHConfig)
    (w : world) (output1 output2 : string) :
  ExecuteInput_Configuration input1 !! "yaml" = Some yaml1 →
  ExecuteInput_Configuration input2 !! "yaml" = Some yaml2 →
  yaml_Unmarshal yaml1 = inr cfg1 →
  yaml_Unmarshal yaml2 = inr cfg2 →
  Username cfg1 = Username cfg2 →
  Host cfg1 = Host cfg2 →
  Port cfg1 = Port cfg2 →
  Command cfg1 = Command cfg2 →
  (RunCommand network1 cfg1 w).1 = Return (output1, 0, None) →
  (RunCommand network2 cfg2 w).1 = Return (output2, 0, None) →
  (Execute yaml_Unmarshal network1 clock uuids input1 w).1
  = (Execute yaml_Unmarshal network2 clock uuids input2 w).1.
Proof.
  intros Hp1 Hp2 Hd1 Hd2 Hu Hh Hport Hc HR1 HR2.
  rewrite (Execute_zero yaml_Unmarshal network1 clock uuids input1 _ _ Hp1 Hd1 w w
             output1 HR1).
  rewrite (Execute_zero yaml_Unmarshal network2 clock uuids input2 _ _ Hp2 Hd2 w w
             output2 HR2).
  unfold success_observation, ssh_target_command_of.
  by rewrite Hu, Hh, Hport, Hc.
Qed.

Lemma Execute_success_hides_password_and_output_witness :
  (Execute yaml_plain nginx_active (ticking ten_o_clock) uuid_seq nginx_execute world0).1
  = (Execute yaml_plain (reachable (server "ok" None)) (ticking ten_o_clock) uuid_seq
       {| ExecuteInput_Configuration :=
            configuration
              (document ["username: svc"; "password: changed"; "host: 10.0.0.5";
                         "command: systemctl is-active nginx"]) |} world0).1.
Proof.
  apply (Execute_success_hides_password_and_output yaml_plain nginx_active
           (reachable (server "ok" None)) (ticking ten_o_clock) uuid_seq
           nginx_execute _ nginx_yaml
           (document ["username: svc"; "password: changed"; "host: 10.0.0.5";
                      "command: systemctl is-active nginx"])
           nginx_config
           (mkSSHConfig "svc" "changed" "10.0.0.5" "systemctl is-active nginx" "")
           world0 "active" "ok").
  - vm_compute. reflexivity.
  - vm_compute. reflexivity.
  - vm_compute. reflexivity.
  - vm_compute. reflexivity.
  - reflexivity.
  - reflexivity.
  - reflexivity.
  - reflexivity.
  - vm_compute. reflexivity.
  - vm_compute. reflexivity.
Defined.

(** X9: the log entry spans the call.  Every result [Execute] returns has one
    log entry, titled "SSH Command Check", whose start is the first clock
    reading of the call, taken before the configuration is looked at, and
    whose end is the fourth and last one; the observation is collected at the
    second reading. *)
Theorem Execute_log_entry_spans_the_call
    (yaml_Unmarshal : string -> error + SSHConfig) (network : ssh.Network)
    (clock : nat -> time.Time) (uuids : nat -> string)
    (input : ExecuteInput) (w : world) (res : ExecuteResult) :
  returns_result (Execute yaml_Unmarshal network clock uuids input w) res →
  ticks (Execute yaml_Unmarshal network clock uuids input w).2 = (4 + ticks w)%nat
  ∧ Logs res
    = [LogEntry.mk "SSH Command Check" "SSH command check has run successfully"
         (time.Format_RFC3339 (clock (ticks w)))
         (time.Format_RFC3339 (clock (3 + ticks w)%nat))]
  ∧ Observation.Collected <$> Observations res
    = [time.Format_RFC3339 (clock (1 + ticks w)%nat)].
Proof.
  intros Hres.
  destruct (Execute_returns_result_inv _ _ _ _ _ _ _ Hres)
    as (yamlString & ssh_config & output & exit_code & Hp & Hd & HR & ->).
  rewrite (Execute_completed_world _ _ _ _ _ _ _ _ _ _ Hp Hd HR). simpl.
  split; [reflexivity|]. split; [reflexivity|].
  destruct (decide (exit_code = 0)); reflexivity.
Qed.

Lemma Execute_log_entry_spans_the_call_witness :
  ticks (Execute yaml_plain nginx_active (ticking ten_o_clock) uuid_seq nginx_execute
           world0).2 = (4 + ticks world0)%nat
  ∧ Logs (success_result (ticking ten_o_clock) uuid_seq nginx_config world0)
    = [LogEntry.mk "SSH Command Check" "SSH command check has run successfully"
         (time.Format_RFC3339 (ticking ten_o_clock (ticks world0)))
         (time.Format_RFC3339 (ticking ten_o_clock (3 + ticks world0)%nat))]
  ∧ Observation.Collected
      <$> Observations (success_result (ticking ten_o_clock) uuid_seq nginx_config world0)
    = [time.Format_RFC3339 (ticking ten_o_clock (1 + ticks world0)%nat)].
Proof.
  apply (Execute_log_entry_spans_the_call yaml_plain nginx_active (ticking ten_o_clock)
           uuid_seq nginx_execute world0).
  vm_compute. reflexivity.
Defined.

(** ** The subject id: when it does identify the target *)

(** The id read back: without an "@" in the username, a ":" in the host and
    a space in the effective port, the four parts of an id are determined by
    the id. *)
Lemma ssh_target_id_of_inj (cfg1 cfg2 : SSHConfig) :
  occurs "@" (Username cfg1) = false → occurs "@" (Username cfg2) = false →
  occurs ":" (Host cfg1) = false → occurs ":" (Host cfg2) = false →
  occurs " " (effective_port (Port cfg1)) = false →
  occurs " " (effective_port (Port cfg2)) = false →
  ssh_target_id_of cfg1 = ssh_target_id_of cfg2 →
  Username cfg1 = Username cfg2 ∧ Host cfg1 = Host cfg2
  ∧ effective_port (Port cfg1) = effective_port (Port cfg2)
  ∧ Command cfg1 = Command cfg2.
Proof.
  intros Hu1 Hu2 Hh1 Hh2 Hp1 Hp2 Hid. unfold ssh_target_id_of in Hid.
  change (Username cfg1 +:+ String "@" (Host cfg1 +:+ String ":"
            (effective_port (Port cfg1) +:+ String " " (Command cfg1)))
          = Username cfg2 +:+ String "@" (Host cfg2 +:+ String ":"
              (effective_port (Port cfg2) +:+ String " " (Command cfg2)))) in Hid.
  destruct (cut_at_delimiter _ _ _ _ _ Hu1 Hu2 Hid) as [Hu Hid'].
  destruct (cut_at_delimiter _ _ _ _ _ Hh1 Hh2 Hid') as [Hh Hid''].
  destruct (cut_at_delimiter _ _ _ _ _ Hp1 Hp2 Hid'') as [Hp Hc].
  auto.
Qed.

(** X10: the subject id identifies the target when the fields hold no
    delimiter.  If neither username contains "@", neither host contains ":"
    and neither effective port contains a space, two configurations whose
    subjects get the same id have the same username, host, effective port and
    command. *)
Theorem Evaluate_subject_id_injective_without_delimiters
    (yaml_Unmarshal : string -> error + SSHConfig)
    (input1 input2 : EvaluateInput) (yaml1 yaml2 : string) (cfg1 cfg2 : SSHConfig)
    (w1 w2 : world) (s1 s2 : Subject.t) :
  EvaluateInput_Configuration input1 !! "yaml" = Some yaml1 →
  EvaluateInput_Configuration input2 !! "yaml" = Some yaml2 →
  yaml_Unmarshal yaml1 = inr cfg1 →
  yaml_Unmarshal yaml2 = inr cfg2 →
  occurs "@" (Username cfg1) = false → occurs "@" (Username cfg2) = false →
  occurs ":" (Host cfg1) = false → occurs ":" (Host cfg2) = false →
  occurs " " (effective_port (Port cfg1)) = false →
  occurs " " (effective_port (Port cfg2)) = false →
  returns_result (Evaluate yaml_Unmarshal input1 w1) {| Subjects := [s1] |} →
  returns_result (Evaluate yaml_Unmarshal input2 w2) {| Subjects := [s2] |} →
  Subject.Id s1 = Subject.Id s2 →
  Username cfg1 = Username cfg2 ∧ Host cfg1 = Host cfg2
  ∧ effective_port (Port cfg1) = effective_port (Port cfg2)
  ∧ Command cfg1 = Command cfg2.
Proof.
  intros Hp1 Hp2 Hd1 Hd2 Hu1 Hu2 Hh1 Hh2 Hport1 Hport2 Hres1 Hres2 Hid.
  unfold returns_result in Hres1, Hres2.
  rewrite (Evaluate_decoded _ _ _ yaml1 cfg1 Hp1 Hd1) in Hres1.
  rewrite (Evaluate_decoded _ _ _ yaml2 cfg2 Hp2 Hd2) in Hres2.
  injection Hres1 as <-. injection Hres2 as <-. simpl in Hid.
  by apply ssh_target_id_of_inj.
Qed.

Lemma Evaluate_subject_id_injective_without_delimiters_witness :
  Username nginx_config
  = Username (mkSSHConfig "svc" "other" "10.0.0.5" "systemctl is-active nginx" "22")
  ∧ Host nginx_config
    = Host (mkSSHConfig "svc" "other" "10.0.0.5" "systemctl is-active nginx" "22")
  ∧ effective_port (Port nginx_config)
    = effective_port
        (Port (mkSSHConfig "svc" "other" "10.0.0.5" "systemctl is-active nginx" "22"))
  ∧ Command nginx_config
    = Command (mkSSHConfig "svc" "other" "10.0.0.5" "systemctl is-active nginx" "22").
Proof.
  apply (Evaluate_subject_id_injective_without_delimiters yaml_plain nginx_evaluate
           {| EvaluateInput_Configuration := configuration nginx_yaml_port22 |}
           nginx_yaml nginx_yaml_port22 nginx_config
           (mkSSHConfig "svc" "other" "10.0.0.5" "systemctl is-active nginx" "22")
           world0 world0 (subject_of nginx_config)
           (subject_of
              (mkSSHConfig "svc" "other" "10.0.0.5" "systemctl is-active nginx" "22"))).
  - vm_compute. reflexivity.
  - vm_compute. reflexivity.
  - vm_compute. reflexivity.
  - vm_compute. reflexivity.
  - vm_compute. reflexivity.
  - vm_compute. reflexivity.
  - vm_compute. reflexivity.
  - vm_compute. reflexivity.
  - vm_compute. reflexivity.
  - vm_compute. reflexivity.
  - vm_compute. reflexivity.
  - vm_compute. reflexivity.
  - vm_compute. reflexivity.
Defined.

(** ** The dialled address when the port is given *)

(** X11: when the document gives a port, the first thing [Execute] does on the
    network is to dial, over tcp, the host at the effective port, which is
    that port, with the configured username, password authentication with the
    configured password, and no host key check. *)
Theorem Execute_dials_the_given_port
    (yaml_Unmarshal : string -> error + SSHConfig) (network : ssh.Network)
    (clock : nat -> time.Time) (uuids : nat -> string)
    (input : ExecuteInput) (yamlString : string) (ssh_config : SSHConfig) (w : world) :
  ExecuteInput_Configuration input !! "yaml" = Some yamlString →
  yaml_Unmarshal yamlString = inr ssh_config →
  Port ssh_config ≠ "" →
  effective_port (Port ssh_config) = Port ssh_config
  ∧ ∃ evs,
      trace (Execute yaml_Unmarshal network clock uuids input w).2
      = trace w
        ++ EvDial "tcp" (Host ssh_config +:+ ":" +:+ effective_port (Port ssh_config))
             (ssh.mkClientConfig (Username ssh_config)
                [ssh.Password (Password ssh_config)] ssh.InsecureIgnoreHostKey)
           :: evs.
Proof.
  intros Hpresent Hdecoded Hport.
  assert (Heff : effective_port (Port ssh_config) = Port ssh_config).
  { unfold effective_port. by case_decide. }
  split; [exact Heff|]. rewrite Heff.
  exact (Execute_dials yaml_Unmarshal network clock uuids input yamlString ssh_config
           Hpresent Hdecoded w).
Qed.

Lemma Execute_dials_the_given_port_witness :
  effective_port "22" = "22"
  ∧ ∃ evs,
      trace (Execute yaml_plain (listening "10.0.0.5:22" (server "active" None))
               (ticking ten_o_clock) uuid_seq
               {| ExecuteInput_Configuration := configuration nginx_yaml_port22 |}
               world0).2
      = trace world0
        ++ EvDial "tcp" ("10.0.0.5" +:+ ":" +:+ effective_port "22")
             (ssh.mkClientConfig "svc" [ssh.Password "other"] ssh.InsecureIgnoreHostKey)
           :: evs.
Proof.
  apply (Execute_dials_the_given_port yaml_plain
           (listening "10.0.0.5:22" (server "active" None)) (ticking ten_o_clock)
           uuid_seq {| ExecuteInput_Configuration := configuration nginx_yaml_port22 |}
           nginx_yaml_port22
           (mkSSHConfig "svc" "other" "10.0.0.5" "systemctl is-active nginx" "22")
           world0).
  - vm_compute. reflexivity.
  - vm_compute. reflexivity.
  - discriminate.
Defined.

(** ** Identity discovery: what a returned result looks like *)

(** X12: every result [Evaluate] returns holds exactly one subject, of type
    inventory item, whose title is "SSH target ssh " followed by its id and
    whose properties are the one entry "id" with that same id; the id has the
    form username@host:port command with a port that is never empty. *)
Theorem Evaluate_result_invariant
    (yaml_Unmarshal : string -> error + SSHConfig) (input : EvaluateInput) (w : world)
    (res : EvaluateResult) :
  returns_result (Evaluate yaml_Unmarshal input w) res →
  ∃ s username host port command,
    Subjects res = [s]
    ∧ Subject.Type_ s = SubjectType_INVENTORY_ITEM
    ∧ Subject.Title s = "SSH target ssh " +:+ Subject.Id s
    ∧ Subject.Props s = {[ "id" := Subject.Id s ]}
    ∧ Subject.Id s = username +:+ "@" +:+ host +:+ ":" +:+ port +:+ " " +:+ command
    ∧ port ≠ "".
Proof.
  unfold returns_result. intros Hres.
  destruct (EvaluateInput_Configuration input !! "yaml") as [yamlString|] eqn:Hpresent.
  - destruct (yaml_Unmarshal yamlString) as [err|ssh_config] eqn:Hdecoded.
    + rewrite (Evaluate_malformed _ _ _ yamlString err) in Hres by assumption.
      discriminate.
    + rewrite (Evaluate_decoded _ _ _ yamlString ssh_config) in Hres by assumption.
      injection Hres as <-.
      exists (subject_of ssh_config), (Username ssh_config), (Host ssh_config),
             (effective_port (Port ssh_config)), (Command ssh_config).
      repeat split. unfold effective_port. by case_decide.
  - rewrite Evaluate_absent in Hres by assumption.
    destruct (yaml_Unmarshal ""); discriminate.
Qed.

Lemma Evaluate_result_invariant_witness :
  ∃ s username host port command,
    Subjects {| Subjects := [subject_of nginx_config] |} = [s]
    ∧ Subject.Type_ s = SubjectType_INVENTORY_ITEM
    ∧ Subject.Title s = "SSH target ssh " +:+ Subject.Id s
    ∧ Subject.Props s = {[ "id" := Subject.Id s ]}
    ∧ Subject.Id s = username +:+ "@" +:+ host +:+ ":" +:+ port +:+ " " +:+ command
    ∧ port ≠ "".
Proof.
  apply (Evaluate_result_invariant yaml_plain nginx_evaluate world0).
  vm_compute. reflexivity.
Defined.
